(** * pymt5adapter.core: the adapter layer over the MetaTrader5 binding

    A shallow embedding of [pymt5adapter/core.py].  The module consists of
    one decorator, [_context_manager_modified], and of the functions it
    decorates; each function forwards its arguments to the function of the
    same name of the external [MetaTrader5] package.

    The external package is a closed binary.  It is modelled as an oracle
    over an abstract terminal state; every call made to it is recorded in
    an event trace, so that "which library function was invoked, with
    which arguments, how many times and in which order" are statements
    about that trace. *)

From Stdlib Require Import ZArith String List Bool Lia.
Import ListNotations.
Local Open Scope string_scope.
Local Open Scope list_scope.
Local Open Scope Z_scope.

Set Implicit Arguments.
Set Warnings "-register-all".

(** ** Python values *)

(** Values the terminal returns and the adapter passes on.  Floats are
    never computed with here, they are kept as mantissa and exponent. *)
Inductive value : Type :=
| VNone
| VBool (b : bool)
| VInt (n : Z)
| VFloat (m e : Z)
| VStr (s : string)
| VDatetime (t : Z)
| VTuple (items : list value)
| VList (items : list value)
| VNamed (cls : string) (fields : list value)
| VRecord (fields : list value)
| VNdarray (rows : list (list value)).

(** What a caller may pass as an argument: a value, a callable used as a
    predicate on values (the [function] parameters), or a dict (the
    [request] parameter, the collected [**kwargs]). *)
Inductive pyobj : Type :=
| PVal (v : value)
| PFun (f : value -> bool)
| PDict (items : list (string * pyobj)).

Definition PNone : pyobj := PVal VNone.
Definition PInt (n : Z) : pyobj := PVal (VInt n).
Definition PStr (s : string) : pyobj := PVal (VStr s).
Definition PBool (b : bool) : pyobj := PVal (VBool b).

Definition dict : Type := list (string * pyobj).

(** [*args, **kwargs] of a call. *)
Record pyargs : Type := mk_pyargs {
  args : list pyobj;
  kwargs : dict
}.

Definition no_args : pyargs := mk_pyargs [] [].

(** ** Exceptions *)

(** [class MT5Error(Exception): pass], raised as
    [MT5Error(error_code, description)], next to the built-in exceptions
    the module can meet. *)
Inductive exn : Type :=
| SystemError
| TypeError
| KeyError
| ValueError
| MT5Error (error_code : Z) (description : string)
| OtherException (name : string).

Inductive outcome (A : Type) : Type :=
| Ret (a : A)
| Raise (e : exn).

Arguments Ret {A} a.
Arguments Raise {A} e.

(** ** Built-in operations of Python the module relies on *)

(** [x is None] *)
Definition is_None (x : pyobj) : bool :=
  match x with PVal VNone => true | _ => false end.

Fixpoint chars (s : string) : list value :=
  match s with
  | EmptyString => []
  | String c s' => VStr (String c EmptyString) :: chars s'
  end.

(** Truth of one field of a record: whether it is other than zero or
    empty. *)
Definition field_truth (v : value) : bool :=
  match v with
  | VNone => false
  | VBool b => b
  | VInt n => negb (n =? 0)
  | VFloat m _ => negb (m =? 0)
  | VStr s => negb (String.eqb s "")
  | VDatetime _ => true
  | VTuple l | VList l | VNamed _ l | VRecord l => negb (Nat.eqb (length l) 0)
  | VNdarray rows => negb (Nat.eqb (length rows) 0)
  end.

(** Truth value of a value, as [if x:] computes it.  A record has the
    truth of its content, an array of one record the truth of that
    record; an array of more than one element has no truth value. *)
Definition value_truth (v : value) : outcome bool :=
  match v with
  | VNone => Ret false
  | VBool b => Ret b
  | VInt n => Ret (negb (n =? 0))
  | VFloat m _ => Ret (negb (m =? 0))
  | VStr s => Ret (negb (String.eqb s ""))
  | VDatetime _ => Ret true
  | VTuple l | VList l | VNamed _ l => Ret (negb (Nat.eqb (length l) 0))
  | VRecord fields => Ret (existsb field_truth fields)
  | VNdarray [] => Ret false
  | VNdarray [row] => Ret (existsb field_truth row)
  | VNdarray _ => Raise ValueError
  end.

Definition truth (x : pyobj) : outcome bool :=
  match x with
  | PVal v => value_truth v
  | PFun _ => Ret true
  | PDict d => Ret (negb (Nat.eqb (length d) 0))
  end.

(** [iter(x)]: the elements a [for] loop, [filter] or [*x] goes through. *)
Definition py_iter (v : value) : outcome (list value) :=
  match v with
  | VTuple l | VList l | VNamed _ l | VRecord l => Ret l
  | VNdarray rows => Ret (map VRecord rows)
  | VStr s => Ret (chars s)
  | VNone | VBool _ | VInt _ | VFloat _ _ | VDatetime _ => Raise TypeError
  end.

(** [s[:n]] *)
Definition prefix (n : nat) (s : string) : string := substring 0 n s.

(** ** Dicts in insertion order *)

Fixpoint dict_get (k : string) (d : dict) : option pyobj :=
  match d with
  | [] => None
  | (k', v) :: d' => if String.eqb k k' then Some v else dict_get k d'
  end.

Definition dict_has (k : string) (d : dict) : bool :=
  match dict_get k d with Some _ => true | None => false end.

Fixpoint dict_remove (k : string) (d : dict) : dict :=
  match d with
  | [] => []
  | (k', v) :: d' => if String.eqb k k' then dict_remove k d' else (k', v) :: dict_remove k d'
  end.

(** [d.pop(k)]: the value and the dict without the key, [KeyError] when
    the key is absent. *)
Definition dict_pop (k : string) (d : dict) : outcome (pyobj * dict) :=
  match dict_get k d with
  | Some v => Ret (v, dict_remove k d)
  | None => Raise KeyError
  end.

(** ** Binding the arguments of a call to the parameters of a [def] *)

Record param : Type := mk_param {
  p_name : string;
  p_default : option pyobj
}.

Definition required (name : string) : param := mk_param name None.
Definition optional (name : string) (default : pyobj) : param := mk_param name (Some default).

(** Parameters before the [*], parameters after it, and whether the
    signature ends in [**kwargs]. *)
Record signature : Type := mk_signature {
  sig_positional : list param;
  sig_keyword_only : list param;
  sig_var_keyword : bool
}.

Definition sig_params (s : signature) : list param :=
  sig_positional s ++ sig_keyword_only s.

Definition mem (k : string) (ks : list string) : bool :=
  existsb (String.eqb k) ks.

Fixpoint fill (ps : list param) (given : dict) : option dict :=
  match ps with
  | [] => Some []
  | p :: ps' =>
      let v := match dict_get (p_name p) given with
               | Some v => Some v
               | None => p_default p
               end in
      match v, fill ps' given with
      | Some v, Some l => Some ((p_name p, v) :: l)
      | _, _ => None
      end
  end.

(** The local variables at the entry of a function called with [a]:
    [TypeError] for too many positional arguments, for a parameter given
    twice, for an unexpected keyword and for a missing argument. *)
Definition bind_args (s : signature) (a : pyargs) : outcome dict :=
  if (length (sig_positional s) <? length (args a))%nat then Raise TypeError
  else
    let by_position := combine (map p_name (sig_positional s)) (args a) in
    let names := map p_name (sig_params s) in
    if existsb (fun kv => mem (fst kv) (map fst by_position)) (kwargs a)
    then Raise TypeError
    else
      let extra := filter (fun kv => negb (mem (fst kv) names)) (kwargs a) in
      if negb (sig_var_keyword s) && negb (Nat.eqb (length extra) 0)
      then Raise TypeError
      else
        match fill (sig_params s) (by_position ++ kwargs a) with
        | None => Raise TypeError
        | Some l =>
            Ret (l ++ if sig_var_keyword s then [("kwargs", PDict extra)] else [])
        end.

(** A local variable by name. *)
Definition local (name : string) (l : dict) : pyobj :=
  match dict_get name l with Some v => v | None => PNone end.

(** ** The external package and the world the adapter runs in *)

(** The functions of the [MetaTrader5] package the module refers to. *)
Inductive mt5_function : Type :=
| mt5_initialize | mt5_login | mt5_shutdown | mt5_version | mt5_last_error
| mt5_account_info | mt5_terminal_info
| mt5_symbols_total | mt5_symbols_get | mt5_symbol_info | mt5_symbol_info_tick
| mt5_symbol_select
| mt5_copy_rates_from | mt5_copy_rates_from_pos | mt5_copy_rates_range
| mt5_copy_ticks_from | mt5_copy_ticks_range
| mt5_orders_total | mt5_orders_get
| mt5_order_calc_margin | mt5_order_calc_profit | mt5_order_check | mt5_order_send
| mt5_positions_total | mt5_positions_get
| mt5_history_deals_get | mt5_history_orders_total | mt5_history_deals_total
| mt5_history_orders_get.

(** One call of [callee] with positional arguments [call_args] and
    keyword arguments [call_kwargs]. *)
Record mt5_call : Type := mk_call {
  callee : mt5_function;
  call_args : list pyobj;
  call_kwargs : dict
}.

(** What an observer of a run sees, in order: the calls into the package
    and the lines handed to [_state.log]. *)
Inductive event : Type :=
| Called (c : mt5_call)
| Logged (line : string).

(** The package as an oracle over the state of the terminal it talks to.
    [invoke] answers every call but [last_error] with a value or an
    exception; [get_last_error] answers [last_error()], typed
    [Tuple[int, str]] in the source. *)
Record MetaTrader5 : Type := mk_MetaTrader5 {
  terminal : Type;
  invoke : mt5_call -> terminal -> outcome value * terminal;
  get_last_error : terminal -> (Z * string) * terminal
}.

Record world (mt5 : MetaTrader5) : Type := mk_world {
  term : terminal mt5;
  trace : list event
}.

Arguments mk_world {mt5} term trace.

(** A computation: it may change the terminal, extends the trace, and
    ends in a value or in an exception.  What was done before an
    exception stays done. *)
Definition M (mt5 : MetaTrader5) (A : Type) : Type :=
  world mt5 -> outcome A * world mt5.

Definition ret {mt5 A} (a : A) : M mt5 A := fun w => (Ret a, w).

Definition raise {mt5 A} (e : exn) : M mt5 A := fun w => (Raise e, w).

Definition bind {mt5 A B} (m : M mt5 A) (k : A -> M mt5 B) : M mt5 B :=
  fun w =>
    match m w with
    | (Ret a, w') => k a w'
    | (Raise e, w') => (Raise e, w')
    end.

Definition lift {mt5 A} (r : outcome A) : M mt5 A := fun w => (r, w).

Definition emit {mt5} (e : event) : M mt5 unit :=
  fun w => (Ret tt, mk_world (term w) (trace w ++ [e])).

(** [try: m  except SystemError: return None] *)
Definition try_except_SystemError {mt5} (m : M mt5 value) : M mt5 value :=
  fun w =>
    match m w with
    | (Raise SystemError, w') => (Ret VNone, w')
    | other => other
    end.

Declare Scope py_scope.
Delimit Scope py_scope with py.
Notation "x <- m ;; k" := (bind m (fun x => k))
  (at level 100, m at next level, right associativity) : py_scope.
Notation "m ;;; k" := (bind m (fun _ => k))
  (at level 100, right associativity) : py_scope.
Local Open Scope py_scope.

(** A call of [_mt5.f] with positional arguments [pos] and keyword
    arguments [kw]. *)
Definition call {mt5} (f : mt5_function) (pos : list pyobj) (kw : dict) : M mt5 value :=
  fun w =>
    let c := mk_call f pos kw in
    let (r, t) := invoke mt5 c (term w) in
    (r, mk_world t (trace w ++ [Called c])).

(** [_mt5.last_error()] *)
Definition call_last_error {mt5} : M mt5 (Z * string) :=
  fun w =>
    let (p, t) := get_last_error mt5 (term w) in
    (Ret p, mk_world t (trace w ++ [Called (mk_call mt5_last_error [] [])])).

(** The results of a list of fallible steps, up to the first that fails. *)
Fixpoint all_results {A B} (f : A -> outcome B) (l : list A) : outcome (list B) :=
  match l with
  | [] => Ret []
  | x :: l' =>
      match f x with
      | Raise e => Raise e
      | Ret y =>
          match all_results f l' with
          | Raise e => Raise e
          | Ret ys => Ret (y :: ys)
          end
      end
  end.

(** ** The modules [core] imports from *)

(** [state.global_state], as far as [core] reads it: three switches. *)
Record global_state : Type := mk_global_state {
  force_namedtuple : bool;
  global_debugging : bool;
  raise_on_errors : bool
}.

(** [helpers]: the functions [core] calls, none of which is part of the
    translated file.  They are parameters of the development. *)
Record Helpers (mt5 : MetaTrader5) : Type := mk_Helpers {
  _args_to_str : list pyobj -> dict -> string;
  _is_rates_array : value -> bool;
  _clean_args : dict -> dict;
  _get_ticket_type_stuff : mt5_function -> dict -> M mt5 value;
  _do_trade_action : mt5_function -> dict -> M mt5 value;
  _get_history_type_stuff : mt5_function -> dict -> M mt5 value
}.

(** Modelled from the spec: the [Rate] named tuple of [types], which is
    not part of the translated file ("converting array-like rate records
    into a named-tuple form").  Its columns are the ones the docstrings of
    the [copy_rates] functions list. *)
Definition Rate_columns : list string :=
  ["time"; "open"; "high"; "low"; "close"; "tick_volume"; "spread"; "real_volume"].

(** [Rate] applied to the unpacked record [r]. *)
Definition Rate (r : value) : outcome value :=
  match py_iter r with
  | Raise e => Raise e
  | Ret fields =>
      if Nat.eqb (length fields) (length Rate_columns)
      then Ret (VNamed "Rate" fields)
      else Raise TypeError
  end.

(** [filter(function, symbols)] consumed by [tuple]: the iterable is
    opened first, the callable is applied once an element is there. *)
Definition py_filter (function : pyobj) (symbols : value) : outcome (list value) :=
  match py_iter symbols with
  | Raise e => Raise e
  | Ret items =>
      match function with
      | PFun f => Ret (filter f items)
      | PVal VNone =>
          match all_results (fun x => match value_truth x with
                                      | Ret b => Ret (x, b)
                                      | Raise e => Raise e
                                      end) items with
          | Ret l => Ret (map fst (filter snd l))
          | Raise e => Raise e
          end
      | _ => match items with [] => Ret [] | _ :: _ => Raise TypeError end
      end
  end.

(** ** core.py *)

Section Core.

(** [import MetaTrader5 as _mt5] *)
Variable mt5 : MetaTrader5.
(** [from . import helpers] *)
Variable helpers : Helpers mt5.
(** [const.RES_S_OK], the code [last_error()] reports after a success *)
Variable RES_S_OK : Z.
(** the built-in [str] on the values of the package *)
Variable str : value -> string.
(** [from .state import global_state as _state] *)
Variable _state : global_state.

Local Abbreviation Py := (M mt5).

(** A [def] with signature [s]: the arguments are bound, then the body
    runs on the local variables. *)
Definition def (s : signature) (body : dict -> Py value) : pyargs -> Py value :=
  fun a => locals <- lift (bind_args s a);; body locals.

Definition no_parameters : signature := mk_signature [] [] false.

(** [last_error() -> Tuple[int, str]], lines 102-108; the one function of
    the module without the decorator. *)
Definition last_error : pyargs -> Py value :=
  def no_parameters (fun _ =>
    e <- call_last_error;;
    ret (VTuple [VInt (fst e); VStr (snd e)])).

(** [error_code, description = t] *)
Definition unpack_error (t : value) : outcome (Z * string) :=
  match py_iter t with
  | Ret [VInt error_code; VStr description] => Ret (error_code, description)
  | Ret [_; _] => Raise TypeError
  | Ret _ => Raise ValueError
  | Raise e => Raise e
  end.

(** Lines 23-25: with [force_namedtuple] set, a result that
    [_is_rates_array] accepts is replaced by the list of the [Rate] of
    each of its elements. *)
Definition reshape (result : value) : outcome value :=
  if force_namedtuple _state then
    if _is_rates_array helpers result then
      match py_iter result with
      | Raise e => Raise e
      | Ret rows =>
          match all_results Rate rows with
          | Raise e => Raise e
          | Ret rates => Ret (VList rates)
          end
      end
    else Ret result
  else Ret result.

(** Lines 26-28: with [global_debugging] set, one line goes to
    [_state.log]; it shows the call, what [last_error()] answers now and
    the first 80 characters of the result. *)
Definition debug_log (f_name : string) (a : pyargs) (result : value) : Py unit :=
  if global_debugging _state then
    let call_sig :=
      (f_name ++ "(" ++ _args_to_str helpers (args a) (kwargs a) ++ ")")%string in
    e <- last_error no_args;;
    emit (Logged ("[" ++ call_sig ++ "][" ++ str e ++ "]["
                      ++ prefix 80 (str result) ++ "]")%string)
  else ret tt.

(** Lines 29-32: with [raise_on_errors] set, [last_error()] is asked and
    any code but [RES_S_OK] is raised as [MT5Error]. *)
Definition check_errors : Py unit :=
  if raise_on_errors _state then
    e <- last_error no_args;;
    p <- lift (unpack_error e);;
    let '(error_code, description) := p in
    if negb (error_code =? RES_S_OK)
    then raise (MT5Error error_code description)
    else ret tt
  else ret tt.

(** Lines 19-35, the decorator.  [f_name] is [f.__name__]. *)
Definition _context_manager_modified
    (f_name : string) (f : pyargs -> Py value) : pyargs -> Py value :=
  fun a =>
    result <- f a;;
    result <- lift (reshape result);;
    debug_log f_name a result;;;
    check_errors;;;
    ret result.

(** *** Connection, lines 38-99 *)

Definition initialize_sig : signature :=
  mk_signature
    [optional "path" PNone]
    [optional "login" PNone; optional "password" PNone; optional "server" PNone;
     optional "portable" (PBool false); optional "timeout" PNone]
    true.

Definition initialize_def : pyargs -> Py value :=
  def initialize_sig (fun locals =>
    let cleaned := _clean_args helpers locals in
    result <- call mt5_initialize [] cleaned;;
    ret result).

Definition initialize := _context_manager_modified "initialize" initialize_def.

Definition login_sig : signature :=
  mk_signature
    [required "login"]
    [optional "password" PNone; optional "server" PNone; optional "timeout" PNone]
    true.

Definition login_def : pyargs -> Py value :=
  def login_sig (fun locals =>
    let args := _clean_args helpers locals in
    popped <- lift (dict_pop "login" args);;
    let '(login, args) := popped in
    call mt5_login [login] args).

Definition login := _context_manager_modified "login" login_def.

Definition shutdown_def : pyargs -> Py value :=
  def no_parameters (fun _ => call mt5_shutdown [] []).

Definition shutdown := _context_manager_modified "shutdown" shutdown_def.

Definition version_def : pyargs -> Py value :=
  def no_parameters (fun _ => call mt5_version [] []).

Definition version := _context_manager_modified "version" version_def.

(** *** Account, terminal and symbols, lines 111-188 *)

Definition account_info_def : pyargs -> Py value :=
  def no_parameters (fun _ => call mt5_account_info [] []).

Definition account_info := _context_manager_modified "account_info" account_info_def.

Definition terminal_info_def : pyargs -> Py value :=
  def no_parameters (fun _ => call mt5_terminal_info [] []).

Definition terminal_info := _context_manager_modified "terminal_info" terminal_info_def.

Definition symbols_total_def : pyargs -> Py value :=
  def no_parameters (fun _ => call mt5_symbols_total [] []).

Definition symbols_total := _context_manager_modified "symbols_total" symbols_total_def.

Definition symbols_get_sig : signature :=
  mk_signature [optional "group" PNone; optional "function" PNone] [] true.

Definition symbols_get_def : pyargs -> Py value :=
  def symbols_get_sig (fun locals =>
    let group := local "group" locals in
    let function := local "function" locals in
    given <- lift (truth group);;
    symbols <- (if given : bool
                then call mt5_symbols_get [] [("group", group)]
                else call mt5_symbols_get [] []);;
    wanted <- lift (truth function);;
    if wanted : bool
    then kept <- lift (py_filter function symbols);; ret (VTuple kept)
    else ret symbols).

Definition symbols_get := _context_manager_modified "symbols_get" symbols_get_def.

Definition symbol_info_sig : signature := mk_signature [required "symbol"] [] false.

Definition symbol_info_def : pyargs -> Py value :=
  def symbol_info_sig (fun locals =>
    call mt5_symbol_info [local "symbol" locals] []).

Definition symbol_info := _context_manager_modified "symbol_info" symbol_info_def.

Definition symbol_info_tick_def : pyargs -> Py value :=
  def symbol_info_sig (fun locals =>
    call mt5_symbol_info_tick [local "symbol" locals] []).

Definition symbol_info_tick :=
  _context_manager_modified "symbol_info_tick" symbol_info_tick_def.

Definition symbol_select_sig : signature :=
  mk_signature [required "symbol"; optional "enable" (PBool true)] [] false.

Definition symbol_select_def : pyargs -> Py value :=
  def symbol_select_sig (fun locals =>
    call mt5_symbol_select [local "symbol" locals; local "enable" locals] []).

Definition symbol_select := _context_manager_modified "symbol_select" symbol_select_def.

(** *** Bars and ticks, lines 191-330 *)

Definition copy_rates_from_sig : signature :=
  mk_signature
    [required "symbol"; required "timeframe"; required "datetime_from"; required "count"]
    [] false.

Definition copy_rates_from_def : pyargs -> Py value :=
  def copy_rates_from_sig (fun locals =>
    try_except_SystemError
      (call mt5_copy_rates_from
         [local "symbol" locals; local "timeframe" locals;
          local "datetime_from" locals; local "count" locals] [])).

Definition copy_rates_from :=
  _context_manager_modified "copy_rates_from" copy_rates_from_def.

Definition copy_rates_from_pos_sig : signature :=
  mk_signature
    [required "symbol"; required "timeframe"; required "start_pos"; required "count"]
    [] false.

Definition copy_rates_from_pos_def : pyargs -> Py value :=
  def copy_rates_from_pos_sig (fun locals =>
    try_except_SystemError
      (call mt5_copy_rates_from_pos
         [local "symbol" locals; local "timeframe" locals;
          local "start_pos" locals; local "count" locals] [])).

Definition copy_rates_from_pos :=
  _context_manager_modified "copy_rates_from_pos" copy_rates_from_pos_def.

Definition copy_rates_range_sig : signature :=
  mk_signature
    [required "symbol"; required "timeframe"; required "datetime_from";
     required "datetime_to"]
    [] false.

Definition copy_rates_range_def : pyargs -> Py value :=
  def copy_rates_range_sig (fun locals =>
    try_except_SystemError
      (call mt5_copy_rates_range
         [local "symbol" locals; local "timeframe" locals;
          local "datetime_from" locals; local "datetime_to" locals] [])).

Definition copy_rates_range :=
  _context_manager_modified "copy_rates_range" copy_rates_range_def.

Definition copy_rates_sig : signature :=
  mk_signature
    [required "symbol"; required "timeframe"]
    [optional "datetime_from" PNone; optional "datetime_to" PNone;
     optional "start_pos" PNone; optional "count" PNone]
    false.

Definition copy_rates_def : pyargs -> Py value :=
  def copy_rates_sig (fun locals =>
    let symbol := local "symbol" locals in
    let timeframe := local "timeframe" locals in
    let datetime_from := local "datetime_from" locals in
    let datetime_to := local "datetime_to" locals in
    let start_pos := local "start_pos" locals in
    let count := local "count" locals in
    let by_position : Py value :=
      if forallb is_None [datetime_from; datetime_to; start_pos; count]
      then call mt5_copy_rates_from_pos [symbol; timeframe; PInt 3000; PInt 0] []
      else call mt5_copy_rates_from_pos [symbol; timeframe; start_pos; count] [] in
    try_except_SystemError
      (if negb (is_None datetime_from) then
         if negb (is_None count) then
           call mt5_copy_rates_from [symbol; timeframe; datetime_from; count] []
         else if negb (is_None datetime_to) then
           call mt5_copy_rates_range [symbol; timeframe; datetime_from; datetime_to] []
         else by_position
       else by_position)).

Definition copy_rates := _context_manager_modified "copy_rates" copy_rates_def.

Definition copy_ticks_from_sig : signature :=
  mk_signature
    [required "symbol"; required "datetime_from"; required "count"; required "flags"]
    [] false.

Definition copy_ticks_from_def : pyargs -> Py value :=
  def copy_ticks_from_sig (fun locals =>
    try_except_SystemError
      (call mt5_copy_ticks_from
         [local "symbol" locals; local "datetime_from" locals;
          local "count" locals; local "flags" locals] [])).

Definition copy_ticks_from :=
  _context_manager_modified "copy_ticks_from" copy_ticks_from_def.

Definition copy_ticks_range_sig : signature :=
  mk_signature
    [required "symbol"; required "datetime_from"; required "datetime_to";
     required "flags"]
    [] false.

Definition copy_ticks_range_def : pyargs -> Py value :=
  def copy_ticks_range_sig (fun locals =>
    try_except_SystemError
      (call mt5_copy_ticks_range
         [local "symbol" locals; local "datetime_from" locals;
          local "datetime_to" locals; local "flags" locals] [])).

Definition copy_ticks_range :=
  _context_manager_modified "copy_ticks_range" copy_ticks_range_def.

(** *** Orders, positions and history, lines 333-574 *)

Definition orders_total_def : pyargs -> Py value :=
  def no_parameters (fun _ => call mt5_orders_total [] []).

Definition orders_total := _context_manager_modified "orders_total" orders_total_def.

Definition orders_get_sig : signature :=
  mk_signature
    [optional "symbol" PNone]
    [optional "group" PNone; optional "ticket" PNone; optional "function" PNone]
    true.

Definition orders_get_def : pyargs -> Py value :=
  def orders_get_sig (fun locals =>
    _get_ticket_type_stuff helpers mt5_orders_get
      [("symbol", local "symbol" locals); ("group", local "group" locals);
       ("ticket", local "ticket" locals); ("function", local "function" locals)]).

Definition orders_get := _context_manager_modified "orders_get" orders_get_def.

Definition order_calc_margin_sig : signature :=
  mk_signature
    [required "order_type"; required "symbol"; required "volume"; required "price"]
    [] false.

Definition order_calc_margin_def : pyargs -> Py value :=
  def order_calc_margin_sig (fun locals =>
    call mt5_order_calc_margin
      [local "order_type" locals; local "symbol" locals;
       local "volume" locals; local "price" locals] []).

Definition order_calc_margin :=
  _context_manager_modified "order_calc_margin" order_calc_margin_def.

Definition order_calc_profit_sig : signature :=
  mk_signature
    [required "order_type"; required "symbol"; required "volume";
     required "price_open"; required "price_close"]
    [] false.

Definition order_calc_profit_def : pyargs -> Py value :=
  def order_calc_profit_sig (fun locals =>
    call mt5_order_calc_profit
      [local "order_type" locals; local "symbol" locals; local "volume" locals;
       local "price_open" locals; local "price_close" locals] []).

Definition order_calc_profit :=
  _context_manager_modified "order_calc_profit" order_calc_profit_def.

(** The signature [order_check] and [order_send] share. *)
Definition trade_request_sig : signature :=
  mk_signature
    [optional "request" PNone]
    [optional "action" PNone; optional "magic" PNone; optional "order" PNone;
     optional "symbol" PNone; optional "volume" PNone; optional "price" PNone;
     optional "stoplimit" PNone; optional "sl" PNone; optional "tp" PNone;
     optional "deviation" PNone; optional "type" PNone; optional "type_filling" PNone;
     optional "type_time" PNone; optional "expiration" PNone;
     optional "comment" PNone; optional "position" PNone; optional "position_by" PNone]
    true.

Definition order_check_def : pyargs -> Py value :=
  def trade_request_sig (fun locals =>
    _do_trade_action helpers mt5_order_check locals).

Definition order_check := _context_manager_modified "order_check" order_check_def.

Definition order_send_def : pyargs -> Py value :=
  def trade_request_sig (fun locals =>
    _do_trade_action helpers mt5_order_send locals).

Definition order_send := _context_manager_modified "order_send" order_send_def.

Definition positions_total_def : pyargs -> Py value :=
  def no_parameters (fun _ => call mt5_positions_total [] []).

Definition positions_total :=
  _context_manager_modified "positions_total" positions_total_def.

Definition positions_get_def : pyargs -> Py value :=
  def orders_get_sig (fun locals =>
    _get_ticket_type_stuff helpers mt5_positions_get
      [("symbol", local "symbol" locals); ("group", local "group" locals);
       ("ticket", local "ticket" locals); ("function", local "function" locals)]).

Definition positions_get := _context_manager_modified "positions_get" positions_get_def.

(** The signature [history_deals_get] and [history_orders_get] share. *)
Definition history_get_sig : signature :=
  mk_signature
    [optional "datetime_from" PNone; optional "datetime_to" PNone]
    [optional "group" PNone; optional "ticket" PNone; optional "position" PNone;
     optional "function" PNone]
    true.

Definition history_deals_get_def : pyargs -> Py value :=
  def history_get_sig (fun locals =>
    let d := locals in
    _get_history_type_stuff helpers mt5_history_deals_get d).

Definition history_deals_get :=
  _context_manager_modified "history_deals_get" history_deals_get_def.

Definition history_total_sig : signature :=
  mk_signature [required "datetime_from"; required "datetime_to"] [] true.

Definition history_orders_total_def : pyargs -> Py value :=
  def history_total_sig (fun locals =>
    call mt5_history_orders_total
      [local "datetime_from" locals; local "datetime_to" locals] []).

Definition history_orders_total :=
  _context_manager_modified "history_orders_total" history_orders_total_def.

Definition history_deals_total_def : pyargs -> Py value :=
  def history_total_sig (fun locals =>
    call mt5_history_deals_total
      [local "datetime_from" locals; local "datetime_to" locals] []).

Definition history_deals_total :=
  _context_manager_modified "history_deals_total" history_deals_total_def.

Definition history_orders_get_def : pyargs -> Py value :=
  def history_get_sig (fun locals =>
    let d := locals in
    _get_history_type_stuff helpers mt5_history_orders_get d).

Definition history_orders_get :=
  _context_manager_modified "history_orders_get" history_orders_get_def.

(** *** The module as a table *)

(** The functions a client of [core] can call. *)
Inductive operation : Type :=
| op_initialize | op_login | op_shutdown | op_version | op_last_error
| op_account_info | op_terminal_info
| op_symbols_total | op_symbols_get | op_symbol_info | op_symbol_info_tick
| op_symbol_select
| op_copy_rates_from | op_copy_rates_from_pos | op_copy_rates_range | op_copy_rates
| op_copy_ticks_from | op_copy_ticks_range
| op_orders_total | op_orders_get
| op_order_calc_margin | op_order_calc_profit | op_order_check | op_order_send
| op_positions_total | op_positions_get
| op_history_deals_get | op_history_orders_total | op_history_deals_total
| op_history_orders_get.

(** The name bound in the module, what a call of it runs. *)
Definition exposed (o : operation) : pyargs -> Py value :=
  match o with
  | op_initialize => initialize
  | op_login => login
  | op_shutdown => shutdown
  | op_version => version
  | op_last_error => last_error
  | op_account_info => account_info
  | op_terminal_info => terminal_info
  | op_symbols_total => symbols_total
  | op_symbols_get => symbols_get
  | op_symbol_info => symbol_info
  | op_symbol_info_tick => symbol_info_tick
  | op_symbol_select => symbol_select
  | op_copy_rates_from => copy_rates_from
  | op_copy_rates_from_pos => copy_rates_from_pos
  | op_copy_rates_range => copy_rates_range
  | op_copy_rates => copy_rates
  | op_copy_ticks_from => copy_ticks_from
  | op_copy_ticks_range => copy_ticks_range
  | op_orders_total => orders_total
  | op_orders_get => orders_get
  | op_order_calc_margin => order_calc_margin
  | op_order_calc_profit => order_calc_profit
  | op_order_check => order_check
  | op_order_send => order_send
  | op_positions_total => positions_total
  | op_positions_get => positions_get
  | op_history_deals_get => history_deals_get
  | op_history_orders_total => history_orders_total
  | op_history_deals_total => history_deals_total
  | op_history_orders_get => history_orders_get
  end.

(** The function as the [def] statement writes it, before any decorator. *)
Definition body_of (o : operation) : pyargs -> Py value :=
  match o with
  | op_initialize => initialize_def
  | op_login => login_def
  | op_shutdown => shutdown_def
  | op_version => version_def
  | op_last_error => last_error
  | op_account_info => account_info_def
  | op_terminal_info => terminal_info_def
  | op_symbols_total => symbols_total_def
  | op_symbols_get => symbols_get_def
  | op_symbol_info => symbol_info_def
  | op_symbol_info_tick => symbol_info_tick_def
  | op_symbol_select => symbol_select_def
  | op_copy_rates_from => copy_rates_from_def
  | op_copy_rates_from_pos => copy_rates_from_pos_def
  | op_copy_rates_range => copy_rates_range_def
  | op_copy_rates => copy_rates_def
  | op_copy_ticks_from => copy_ticks_from_def
  | op_copy_ticks_range => copy_ticks_range_def
  | op_orders_total => orders_total_def
  | op_orders_get => orders_get_def
  | op_order_calc_margin => order_calc_margin_def
  | op_order_calc_profit => order_calc_profit_def
  | op_order_check => order_check_def
  | op_order_send => order_send_def
  | op_positions_total => positions_total_def
  | op_positions_get => positions_get_def
  | op_history_deals_get => history_deals_get_def
  | op_history_orders_total => history_orders_total_def
  | op_history_deals_total => history_deals_total_def
  | op_history_orders_get => history_orders_get_def
  end.

(** [f.__name__] *)
Definition name_of (o : operation) : string :=
  match o with
  | op_initialize => "initialize"
  | op_login => "login"
  | op_shutdown => "shutdown"
  | op_version => "version"
  | op_last_error => "last_error"
  | op_account_info => "account_info"
  | op_terminal_info => "terminal_info"
  | op_symbols_total => "symbols_total"
  | op_symbols_get => "symbols_get"
  | op_symbol_info => "symbol_info"
  | op_symbol_info_tick => "symbol_info_tick"
  | op_symbol_select => "symbol_select"
  | op_copy_rates_from => "copy_rates_from"
  | op_copy_rates_from_pos => "copy_rates_from_pos"
  | op_copy_rates_range => "copy_rates_range"
  | op_copy_rates => "copy_rates"
  | op_copy_ticks_from => "copy_ticks_from"
  | op_copy_ticks_range => "copy_ticks_range"
  | op_orders_total => "orders_total"
  | op_orders_get => "orders_get"
  | op_order_calc_margin => "order_calc_margin"
  | op_order_calc_profit => "order_calc_profit"
  | op_order_check => "order_check"
  | op_order_send => "order_send"
  | op_positions_total => "positions_total"
  | op_positions_get => "positions_get"
  | op_history_deals_get => "history_deals_get"
  | op_history_orders_total => "history_orders_total"
  | op_history_deals_total => "history_deals_total"
  | op_history_orders_get => "history_orders_get"
  end.

(** The parameters of the [def]. *)
Definition signature_of (o : operation) : signature :=
  match o with
  | op_initialize => initialize_sig
  | op_login => login_sig
  | op_shutdown | op_version | op_last_error | op_account_info | op_terminal_info
  | op_symbols_total | op_orders_total | op_positions_total => no_parameters
  | op_symbols_get => symbols_get_sig
  | op_symbol_info | op_symbol_info_tick => symbol_info_sig
  | op_symbol_select => symbol_select_sig
  | op_copy_rates_from => copy_rates_from_sig
  | op_copy_rates_from_pos => copy_rates_from_pos_sig
  | op_copy_rates_range => copy_rates_range_sig
  | op_copy_rates => copy_rates_sig
  | op_copy_ticks_from => copy_ticks_from_sig
  | op_copy_ticks_range => copy_ticks_range_sig
  | op_orders_get | op_positions_get => orders_get_sig
  | op_order_calc_margin => order_calc_margin_sig
  | op_order_calc_profit => order_calc_profit_sig
  | op_order_check | op_order_send => trade_request_sig
  | op_history_deals_get | op_history_orders_get => history_get_sig
  | op_history_orders_total | op_history_deals_total => history_total_sig
  end.

(** *** What the statements below talk about *)

(** The functions of the package an operation stands for: the one of the
    same name, and for [copy_rates] the three it chooses from. *)
Definition counterparts (o : operation) : list mt5_function :=
  match o with
  | op_initialize => [mt5_initialize]
  | op_login => [mt5_login]
  | op_shutdown => [mt5_shutdown]
  | op_version => [mt5_version]
  | op_last_error => [mt5_last_error]
  | op_account_info => [mt5_account_info]
  | op_terminal_info => [mt5_terminal_info]
  | op_symbols_total => [mt5_symbols_total]
  | op_symbols_get => [mt5_symbols_get]
  | op_symbol_info => [mt5_symbol_info]
  | op_symbol_info_tick => [mt5_symbol_info_tick]
  | op_symbol_select => [mt5_symbol_select]
  | op_copy_rates_from => [mt5_copy_rates_from]
  | op_copy_rates_from_pos => [mt5_copy_rates_from_pos]
  | op_copy_rates_range => [mt5_copy_rates_range]
  | op_copy_rates => [mt5_copy_rates_from; mt5_copy_rates_range; mt5_copy_rates_from_pos]
  | op_copy_ticks_from => [mt5_copy_ticks_from]
  | op_copy_ticks_range => [mt5_copy_ticks_range]
  | op_orders_total => [mt5_orders_total]
  | op_orders_get => [mt5_orders_get]
  | op_order_calc_margin => [mt5_order_calc_margin]
  | op_order_calc_profit => [mt5_order_calc_profit]
  | op_order_check => [mt5_order_check]
  | op_order_send => [mt5_order_send]
  | op_positions_total => [mt5_positions_total]
  | op_positions_get => [mt5_positions_get]
  | op_history_deals_get => [mt5_history_deals_get]
  | op_history_orders_total => [mt5_history_orders_total]
  | op_history_deals_total => [mt5_history_deals_total]
  | op_history_orders_get => [mt5_history_orders_get]
  end.

(** The operations that hand the function of the package to a helper
    instead of calling it themselves. *)
Definition via_helper (o : operation) : bool :=
  match o with
  | op_orders_get | op_positions_get | op_order_check | op_order_send
  | op_history_deals_get | op_history_orders_get => true
  | _ => false
  end.

(** The operations whose body stands in [try: ... except SystemError]. *)
Definition guards_SystemError (o : operation) : bool :=
  match o with
  | op_copy_rates_from | op_copy_rates_from_pos | op_copy_rates_range | op_copy_rates
  | op_copy_ticks_from | op_copy_ticks_range => true
  | _ => false
  end.

(** What the package answers to call [c] in terminal state [t], and the
    state it leaves. *)
Definition answer (c : mt5_call) (t : terminal mt5) : outcome value * terminal mt5 :=
  match callee c with
  | mt5_last_error =>
      (Ret (VTuple [VInt (fst (fst (get_last_error mt5 t)));
                    VStr (snd (fst (get_last_error mt5 t)))]),
       snd (get_last_error mt5 t))
  | _ => invoke mt5 c t
  end.

(** What an operation makes of the answer [r] of the package: nothing,
    but for [None] in place of [SystemError] in the guarded operations
    and for the filter of [symbols_get]. *)
Definition handed_back (o : operation) (locals : dict) (r : outcome value) : outcome value :=
  match o with
  | op_symbols_get =>
      match r with
      | Raise e => Raise e
      | Ret symbols =>
          match truth (local "function" locals) with
          | Raise e => Raise e
          | Ret false => Ret symbols
          | Ret true =>
              match py_filter (local "function" locals) symbols with
              | Raise e => Raise e
              | Ret kept => Ret (VTuple kept)
              end
          end
      end
  | _ =>
      if guards_SystemError o then
        match r with
        | Raise SystemError => Ret VNone
        | other => other
        end
      else r
  end.



(** What [last_error()] would answer in world [w]. *)
Definition reported (w : world mt5) : Z * string :=
  fst (get_last_error mt5 (term w)).

(** The world once [last_error()] has been asked in [w]. *)
Definition asked (w : world mt5) : world mt5 :=
  mk_world (snd (get_last_error mt5 (term w)))
           (trace w ++ [Called (mk_call mt5_last_error [] [])]).

(** The world the error check of the decorator starts in, [w] being the
    world the decorated function returned in: the log line, when there is
    one, has asked [last_error()] before. *)
Definition before_check (w : world mt5) : world mt5 :=
  if global_debugging _state then asked w else w.

End Core.

Arguments answer [mt5] c t.

Definition is_last_error_call (c : mt5_call) : bool :=
  match callee c with mt5_last_error => true | _ => false end.

(** The calls of a trace that ask the terminal for more than its last
    error, in order. *)
Fixpoint data_calls (t : list event) : list mt5_call :=
  match t with
  | [] => []
  | Called c :: t' => if is_last_error_call c then data_calls t' else c :: data_calls t'
  | Logged _ :: t' => data_calls t'
  end.

(** The lines of a trace that went to the log, in order. *)
Fixpoint logged_lines (t : list event) : list string :=
  match t with
  | [] => []
  | Called _ :: t' => logged_lines t'
  | Logged line :: t' => line :: logged_lines t'
  end.

(** ** A terminal to run the module against *)

(** A small simulated terminal and stand-ins for the helpers, used to
    run the definitions above on concrete calls. *)
Module Demo.

Record station : Type := mk_station {
  connected : bool;
  last : Z * string
}.

Definition success : Z * string := (1, "Success").
Definition no_connection : Z * string := (-10004, "No IPC connection").
Definition invalid_params : Z * string := (-2, "Invalid params").

Definition symbol_named (name : string) (digits : Z) : value :=
  VNamed "SymbolInfo" [VStr name; VInt digits].

Definition EURUSD : value := symbol_named "EURUSD" 5.
Definition GBPUSD : value := symbol_named "GBPUSD" 5.
Definition USDJPY : value := symbol_named "USDJPY" 3.

Definition bar (time : Z) (open high low close : Z) : list value :=
  [VInt time; VFloat open (-5); VFloat high (-5); VFloat low (-5); VFloat close (-5);
   VInt 120; VInt 2; VInt 0].

Definition bars : value :=
  VNdarray [bar 1577836800 112010 112250 111900 112100;
            bar 1577840400 112100 112300 112050 112200].

Definition is_negative (x : pyobj) : bool :=
  match x with
  | PVal (VInt n) => n <? 0
  | _ => false
  end.

(** The answer of a connected terminal. *)
Definition serve (c : mt5_call) (t : station) : outcome value * station :=
  match callee c with
  | mt5_symbols_get => (Ret (VTuple [EURUSD; GBPUSD; USDJPY]), mk_station true success)
  | mt5_account_info =>
      (Ret (VNamed "AccountInfo" [VInt 1001; VStr "demo"]), mk_station true success)
  | mt5_copy_rates_from | mt5_copy_rates_from_pos | mt5_copy_rates_range
  | mt5_copy_ticks_from | mt5_copy_ticks_range =>
      match call_args c with
      | [PVal (VStr _); _; _; _] =>
          if existsb is_negative (call_args c)
          then (Raise SystemError, mk_station true invalid_params)
          else (Ret bars, mk_station true success)
      | _ => (Raise TypeError, t)
      end
  | mt5_login => (Ret (VBool true), mk_station true success)
  | _ => (Ret (VInt 0), mk_station true success)
  end.

Definition station_invoke (c : mt5_call) (t : station) : outcome value * station :=
  match callee c with
  | mt5_initialize => (Ret (VBool true), mk_station true success)
  | mt5_shutdown => (Ret VNone, mk_station false success)
  | _ =>
      if connected t then serve c t
      else (Ret VNone, mk_station false no_connection)
  end.

Definition mt5 : MetaTrader5 :=
  mk_MetaTrader5 station_invoke (fun t => (last t, t)).

Definition show (x : pyobj) : string :=
  match x with
  | PVal (VStr s) => s
  | PVal VNone => "None"
  | PVal _ => "#"
  | PFun _ => "<function>"
  | PDict _ => "{}"
  end.

Definition args_to_str (a : list pyobj) (kw : dict) : string :=
  String.concat ", "
    (map show a ++ map (fun kv => (fst kv ++ "=" ++ show (snd kv))%string) kw).

Definition is_rates_array (v : value) : bool :=
  match v with
  | VNdarray (r :: _) => Nat.eqb (length r) 8
  | _ => false
  end.

Definition clean_args (d : dict) : dict :=
  filter (fun kv => negb (is_None (snd kv)) && negb (String.eqb (fst kv) "kwargs")) d.

Definition helpers : Helpers mt5 :=
  mk_Helpers
    args_to_str
    is_rates_array
    clean_args
    (fun f kw => call f [] (clean_args kw))
    (fun f d => call f [PDict (clean_args d)] [])
    (fun f d => call f [] (clean_args d)).

Definition str (v : value) : string :=
  match v with
  | VNone => "None"
  | VBool true => "True"
  | VBool false => "False"
  | VStr s => s
  | VTuple [VInt n; VStr d] =>
      ((if (n =? 1)%Z then "(1, '" else "(<code>, '") ++ d ++ "')")%string
  | VTuple _ => "(...)"
  | VList _ => "[...]"
  | VNamed cls _ => (cls ++ "(...)")%string
  | _ => "<object>"
  end.

Definition RES_S_OK : Z := 1.

Definition quiet : global_state := mk_global_state false false false.
Definition strict : global_state := mk_global_state false false true.
Definition verbose_strict : global_state := mk_global_state false true true.
Definition named : global_state := mk_global_state true false false.
Definition everything : global_state := mk_global_state true true true.

Definition online : world mt5 := @mk_world mt5 (mk_station true success) [].
Definition offline : world mt5 := @mk_world mt5 (mk_station false success) [].

(** A terminal that lost its connection and says so. *)
Definition failed : world mt5 := @mk_world mt5 (mk_station false no_connection) [].

Definition two_bars_from_2020 : pyargs :=
  mk_pyargs [PStr "EURUSD"; PInt 60; PVal (VDatetime 1577836800); PInt 2] [].

Definition all_defaults : pyargs := mk_pyargs [PStr "EURUSD"; PInt 60] [].

Definition ticks_of_negative_count : pyargs :=
  mk_pyargs [PStr "EURUSD"; PVal (VDatetime 1577836800); PInt (-1); PInt 1] [].

Definition account_5 : pyargs :=
  mk_pyargs [PInt 5] [("password", PStr "secret"); ("timeout", PNone)].

Definition is_major (s : value) : bool :=
  match s with
  | VNamed _ (VStr name :: _) => negb (String.eqb name "USDJPY")
  | _ => false
  end.

(** An array whose second record lacks seven of the eight columns, and
    a function that answers it. *)
Definition ragged : value :=
  VNdarray [bar 1577836800 112010 112250 111900 112100; [VInt 1577840400]].

Definition answer_ragged : pyargs -> M mt5 value := fun _ => ret ragged.

Definition no_account : pyargs := mk_pyargs [PNone] [("password", PStr "secret")].

Definition symbol_as_number : pyargs := mk_pyargs [PInt 1; PInt 60; PInt 0; PInt 2] [].

Definition buy_request : pyargs := mk_pyargs [] [("action", PInt 1); ("magic", PInt 7)].

Definition majors_only : pyargs := mk_pyargs [] [("function", PFun is_major)].

Definition whole_2020 : pyargs :=
  mk_pyargs [PVal (VDatetime 1577836800); PVal (VDatetime 1609459200)]
            [("group", PStr "*USD*")].

Definition two_bars_by_keyword : pyargs :=
  mk_pyargs [PStr "EURUSD"; PInt 60]
            [("count", PInt 2); ("datetime_from", PVal (VDatetime 1577836800))].

End Demo.

(** * Properties *)

Unset Implicit Arguments.

(** ** Calls into the package *)

Section CallFacts.

Variable mt5 : MetaTrader5.

Lemma call_run (f : mt5_function) (pos : list pyobj) (kw : dict) (w : world mt5) :
  call f pos kw w =
  (fst (invoke mt5 (mk_call f pos kw) (term w)),
   mk_world (snd (invoke mt5 (mk_call f pos kw) (term w)))
            (trace w ++ [Called (mk_call f pos kw)])).
Proof. unfold call. now destruct (invoke mt5 _ _). Qed.

Lemma try_except_call (f : mt5_function) (pos : list pyobj) (kw : dict) (w : world mt5) :
  try_except_SystemError (call f pos kw) w =
  (match fst (invoke mt5 (mk_call f pos kw) (term w)) with
   | Raise SystemError => Ret VNone
   | other => other
   end,
   mk_world (snd (invoke mt5 (mk_call f pos kw) (term w)))
            (trace w ++ [Called (mk_call f pos kw)])).
Proof.
  unfold try_except_SystemError. rewrite call_run.
  destruct (fst (invoke mt5 _ _)) as [v | []]; reflexivity.
Qed.

End CallFacts.

(** ** Traces *)

Lemma data_calls_app (t u : list event) :
  data_calls (t ++ u) = data_calls t ++ data_calls u.
Proof.
  induction t as [| [c | line] t IH]; simpl; auto.
  destruct (is_last_error_call c); simpl; now rewrite IH.
Qed.

Lemma logged_lines_app (t u : list event) :
  logged_lines (t ++ u) = logged_lines t ++ logged_lines u.
Proof.
  induction t as [| [c | line] t IH]; simpl; auto. now rewrite IH.
Qed.

(** ** The decorator, step by step *)

Section DecoratorFacts.

Variable mt5 : MetaTrader5.
Variable helpers : Helpers mt5.
Variable RES_S_OK : Z.
Variable str : value -> string.
Variable _state : global_state.

Local Abbreviation wrapped := (_context_manager_modified helpers RES_S_OK str _state).

Lemma last_error_run (w : world mt5) :
  last_error no_args w =
  (Ret (VTuple [VInt (fst (reported w)); VStr (snd (reported w))]), asked w).
Proof.
  unfold last_error, def, reported, asked. cbn.
  unfold bind, lift, call_last_error. cbn.
  destruct (get_last_error mt5 (term w)) as [[c d] t]. reflexivity.
Qed.

Lemma debug_log_run (f_name : string) (a : pyargs) (result : value) (w : world mt5) :
  debug_log helpers str _state f_name a result w =
  (Ret tt,
   if global_debugging _state then
     mk_world (term (asked w))
       (trace (asked w) ++
        [Logged ("[" ++ (f_name ++ "(" ++ _args_to_str helpers (args a) (kwargs a) ++ ")")
                 ++ "]["
                 ++ str (VTuple [VInt (fst (reported w)); VStr (snd (reported w))])
                 ++ "][" ++ prefix 80 (str result) ++ "]")%string])
   else w).
Proof.
  unfold debug_log. destruct (global_debugging _state); [| reflexivity].
  unfold bind. rewrite last_error_run. reflexivity.
Qed.

Lemma term_after_debug_log f_name a result w :
  term (snd (debug_log helpers str _state f_name a result w)) =
  term (before_check _state w).
Proof.
  rewrite debug_log_run. unfold before_check.
  now destruct (global_debugging _state).
Qed.

Lemma check_errors_run (w : world mt5) :
  check_errors RES_S_OK _state w =
  if raise_on_errors _state then
    (if fst (reported w) =? RES_S_OK then Ret tt
     else Raise (MT5Error (fst (reported w)) (snd (reported w))),
     asked w)
  else (Ret tt, w).
Proof.
  unfold check_errors. destruct (raise_on_errors _state); [| reflexivity].
  unfold bind. rewrite last_error_run. cbn.
  destruct (reported w) as [c d]. cbn.
  now destruct (c =? RES_S_OK).
Qed.

(** What the decorated function does once the function it decorates has
    come to an end. *)
Lemma wrapped_run (f_name : string) (f : pyargs -> M mt5 value) (a : pyargs) (w : world mt5) :
  wrapped f_name f a w =
  match f a w with
  | (Raise e, w1) => (Raise e, w1)
  | (Ret r, w1) =>
      match reshape helpers _state r with
      | Raise e => (Raise e, w1)
      | Ret r' =>
          let w2 := snd (debug_log helpers str _state f_name a r' w1) in
          match check_errors RES_S_OK _state w2 with
          | (Ret _, w3) => (Ret r', w3)
          | (Raise e, w3) => (Raise e, w3)
          end
      end
  end.
Proof.
  unfold _context_manager_modified, bind at 1.
  destruct (f a w) as [[r | e] w1]; [| reflexivity].
  unfold bind at 1, lift.
  destruct (reshape helpers _state r) as [r' | e]; [| reflexivity].
  unfold bind at 1. rewrite debug_log_run. cbn [snd].
  unfold bind at 1.
  destruct (check_errors RES_S_OK _state _) as [[[] | e] w3]; reflexivity.
Qed.

End DecoratorFacts.

(** ** Rate records *)

(** A record of as many fields as [Rate] has columns becomes the [Rate]
    of these fields. *)
Lemma Rate_of_record (row : value) (fields : list value) :
  py_iter row = Ret fields ->
  length fields = 8%nat ->
  Rate row = Ret (VNamed "Rate" fields).
Proof.
  intros Hi Hl. unfold Rate. rewrite Hi, Hl. reflexivity.
Qed.

Lemma all_results_Rate (rows : list value) (records : list (list value)) :
  Forall2 (fun row fields => py_iter row = Ret fields /\ length fields = 8%nat)
          rows records ->
  all_results Rate rows = Ret (map (VNamed "Rate") records).
Proof.
  induction 1 as [| row fields rows records [Hi Hl] _ IH]; cbn.
  - reflexivity.
  - now rewrite (Rate_of_record row fields Hi Hl), IH.
Qed.

(** ** The decorator: errors, identity, order of effects, reshaping *)

Section DecoratorClaims.

Variable mt5 : MetaTrader5.
Variable helpers : Helpers mt5.
Variable RES_S_OK : Z.
Variable str : value -> string.
Variable _state : global_state.

Local Abbreviation wrapped := (_context_manager_modified helpers RES_S_OK str _state).

(** The outcome of a decorated call whose function returned [r] and whose
    result was reshaped to [r']. *)
Lemma wrapped_outcome f_name (f : pyargs -> M mt5 value) a w r w1 r' :
  f a w = (Ret r, w1) ->
  reshape helpers _state r = Ret r' ->
  fst (wrapped f_name f a w) =
  if raise_on_errors _state && negb (fst (reported (before_check _state w1)) =? RES_S_OK)
  then Raise (MT5Error (fst (reported (before_check _state w1)))
                       (snd (reported (before_check _state w1))))
  else Ret r'.
Proof.
  intros Hf Hr. rewrite wrapped_run, Hf, Hr. cbn zeta.
  rewrite check_errors_run.
  unfold reported at 1 2 3. rewrite term_after_debug_log.
  fold (reported (before_check _state w1)).
  destruct (raise_on_errors _state); cbn; [| reflexivity].
  now destruct (fst (reported (before_check _state w1)) =? RES_S_OK).
Qed.

(** A decorated call returns nothing but the reshaped result. *)
Lemma wrapped_returns_reshaped f_name (f : pyargs -> M mt5 value) a w r w1 r' v :
  f a w = (Ret r, w1) ->
  reshape helpers _state r = Ret r' ->
  fst (wrapped f_name f a w) = Ret v -> v = r'.
Proof.
  intros Hf Hr. rewrite (wrapped_outcome f_name f a w r w1 r' Hf Hr).
  destruct (_ && _); congruence.
Qed.

(** An exception of the decorated function leaves the decorator as it is. *)
Lemma wrapped_raises f_name (f : pyargs -> M mt5 value) a w e w1 :
  f a w = (Raise e, w1) -> wrapped f_name f a w = (Raise e, w1).
Proof. intros Hf. now rewrite wrapped_run, Hf. Qed.

(** The decorator adds no call but [last_error()] to those of the
    function it decorates. *)
Lemma wrapped_data_calls f_name (f : pyargs -> M mt5 value) a w :
  data_calls (trace (snd (wrapped f_name f a w))) = data_calls (trace (snd (f a w))).
Proof.
  rewrite wrapped_run.
  destruct (f a w) as [[r | e] w1]; [| reflexivity].
  destruct (reshape helpers _state r) as [r' | e]; [| reflexivity].
  cbn zeta. rewrite check_errors_run, debug_log_run. cbn [snd].
  destruct (global_debugging _state), (raise_on_errors _state); cbn [fst snd];
    repeat match goal with
           | |- context [if ?b then Ret tt else _] => destruct b
           end;
    cbn [snd asked trace term]; rewrite ?data_calls_app; cbn;
    rewrite ?app_nil_r; reflexivity.
Qed.

(** What a decorated call adds to the log: one line under
    [global_debugging], nothing otherwise. *)
Lemma wrapped_logged_lines f_name (f : pyargs -> M mt5 value) a w r w1 r' :
  f a w = (Ret r, w1) ->
  reshape helpers _state r = Ret r' ->
  logged_lines (trace (snd (wrapped f_name f a w))) =
  logged_lines (trace w1) ++
  (if global_debugging _state
   then [("[" ++ (f_name ++ "(" ++ _args_to_str helpers (args a) (kwargs a) ++ ")")
          ++ "]["
          ++ str (VTuple [VInt (fst (reported w1)); VStr (snd (reported w1))])
          ++ "][" ++ prefix 80 (str r') ++ "]")%string]
   else []).
Proof.
  intros Hf Hr. rewrite wrapped_run, Hf, Hr. cbn zeta.
  rewrite check_errors_run, debug_log_run.
  destruct (global_debugging _state), (raise_on_errors _state); cbn [fst snd];
    repeat match goal with
           | |- context [if ?b then Ret tt else _] => destruct b
           end;
    cbn [snd asked trace term]; rewrite ?logged_lines_app; cbn;
    rewrite ?app_nil_r; reflexivity.
Qed.

(** A decorated call returns the reshaped result whenever the error
    check has nothing to raise. *)
Lemma wrapped_returns_when_check_passes
    f_name (f : pyargs -> M mt5 value) a w r w1 r' :
  f a w = (Ret r, w1) ->
  reshape helpers _state r = Ret r' ->
  raise_on_errors _state = false \/
  fst (reported (before_check _state w1)) = RES_S_OK ->
  fst (wrapped f_name f a w) = Ret r'.
Proof.
  intros Hf Hr Hpass. rewrite (wrapped_outcome f_name f a w r w1 r' Hf Hr).
  destruct Hpass as [-> | ->]; [reflexivity |].
  now rewrite Z.eqb_refl, andb_false_r.
Qed.

(** C1. With [raise_on_errors] set, a decorated call whose function has
    returned raises [MT5Error] exactly when the [last_error()] of the
    error check reports a code other than [RES_S_OK], and the exception
    carries that code and description.  When the code is [RES_S_OK], or
    when [raise_on_errors] is off, nothing is raised and the result, as
    reshaped, is returned. *)
Theorem raise_on_errors_iff_error_reported
    f_name (f : pyargs -> M mt5 value) a w r w1 r' :
  f a w = (Ret r, w1) ->
  reshape helpers _state r = Ret r' ->
  (raise_on_errors _state = true ->
     ((exists c d, fst (wrapped f_name f a w) = Raise (MT5Error c d)) <->
      fst (reported (before_check _state w1)) <> RES_S_OK) /\
     (fst (reported (before_check _state w1)) <> RES_S_OK ->
      fst (wrapped f_name f a w) =
      Raise (MT5Error (fst (reported (before_check _state w1)))
                      (snd (reported (before_check _state w1)))))) /\
  (raise_on_errors _state = false \/
   fst (reported (before_check _state w1)) = RES_S_OK ->
   fst (wrapped f_name f a w) = Ret r').
Proof.
  intros Hf Hr. rewrite (wrapped_outcome f_name f a w r w1 r' Hf Hr).
  destruct (Z.eqb_spec (fst (reported (before_check _state w1))) RES_S_OK) as [He | Hne].
  - rewrite andb_false_r. split.
    + intros _. split.
      * split; [intros (c & d & H); discriminate | intros H; contradiction].
      * intros H; contradiction.
    + reflexivity.
  - rewrite andb_true_r. split.
    + intros ->. split.
      * split; [intros _; exact Hne | intros _; eauto].
      * reflexivity.
    + intros [-> | H]; [reflexivity | contradiction].
Qed.

(** C7. With [force_namedtuple], [global_debugging] and
    [raise_on_errors] all off, a decorated call is the call of the
    function it decorates: same value or exception, same trace, same
    terminal. *)
Theorem wrapper_is_identity_when_switched_off
    f_name (f : pyargs -> M mt5 value) a w :
  force_namedtuple _state = false ->
  global_debugging _state = false ->
  raise_on_errors _state = false ->
  wrapped f_name f a w = f a w.
Proof.
  intros Hn Hd Hr. rewrite wrapped_run.
  destruct (f a w) as [[r | e] w1]; [| reflexivity].
  unfold reshape. rewrite Hn. cbn zeta.
  rewrite check_errors_run, debug_log_run, Hd, Hr. reflexivity.
Qed.

(** C10. The effects of the decorator come in a fixed order: reshaping,
    then the log line, then the error check.  With [global_debugging] and
    [raise_on_errors] both set: when reshaping fails nothing is logged
    and [last_error()] is not asked; otherwise the trace grows by the
    [last_error()] of the log line, the log line (call signature, that
    answer, the first 80 characters of the reshaped result) and the
    [last_error()] of the check, in this order, and when this last
    answer is not [RES_S_OK] the call ends in [MT5Error] instead of the
    reshaped result. *)
Theorem effects_in_fixed_order
    f_name (f : pyargs -> M mt5 value) a w r w1 :
  f a w = (Ret r, w1) ->
  global_debugging _state = true ->
  raise_on_errors _state = true ->
  (forall e, reshape helpers _state r = Raise e ->
             wrapped f_name f a w = (Raise e, w1)) /\
  (forall r', reshape helpers _state r = Ret r' ->
     trace (snd (wrapped f_name f a w)) =
       trace w1 ++
       [Called (mk_call mt5_last_error [] []);
        Logged ("[" ++ (f_name ++ "(" ++ _args_to_str helpers (args a) (kwargs a) ++ ")")
                ++ "]["
                ++ str (VTuple [VInt (fst (reported w1)); VStr (snd (reported w1))])
                ++ "][" ++ prefix 80 (str r') ++ "]")%string;
        Called (mk_call mt5_last_error [] [])] /\
     (fst (reported (asked w1)) <> RES_S_OK ->
      fst (wrapped f_name f a w) =
      Raise (MT5Error (fst (reported (asked w1))) (snd (reported (asked w1))))) /\
     (fst (reported (asked w1)) = RES_S_OK ->
      fst (wrapped f_name f a w) = Ret r')).
Proof.
  intros Hf Hd Hr. split.
  - intros e He. now rewrite wrapped_run, Hf, He.
  - intros r' Hr'. split.
    + rewrite wrapped_run, Hf, Hr'. cbn zeta.
      rewrite check_errors_run, debug_log_run, Hd, Hr.
      cbn [snd fst].
      destruct (_ =? RES_S_OK); cbn [snd asked trace term];
        rewrite <- !app_assoc; reflexivity.
    + rewrite (wrapped_outcome f_name f a w r w1 r' Hf Hr').
      unfold before_check. rewrite Hd, Hr. cbn [andb].
      destruct (Z.eqb_spec (fst (reported (asked w1))) RES_S_OK);
        split; intros; cbn; congruence.
Qed.

(** C3. With [force_namedtuple] set, a result that [_is_rates_array]
    accepts and whose elements are records of the eight rate columns
    comes back as the list of the [Rate] of each record, in the same
    order and of the same length; with the switch off, or for a result
    that is not a rates array, the result comes back as it is.  "Comes
    back": it is the only value the decorated call can return, and it is
    returned whenever the error check lets the call return. *)
Theorem rates_become_named_tuples
    f_name (f : pyargs -> M mt5 value) a w r w1 :
  f a w = (Ret r, w1) ->
  (force_namedtuple _state = true ->
   _is_rates_array helpers r = true ->
   forall rows records,
     py_iter r = Ret rows ->
     Forall2 (fun row fields => py_iter row = Ret fields /\ length fields = 8%nat)
             rows records ->
     length (map (VNamed "Rate") records) = length rows /\
     (forall i fields, nth_error records i = Some fields ->
        nth_error (map (VNamed "Rate") records) i = Some (VNamed "Rate" fields)) /\
     (forall v, fst (wrapped f_name f a w) = Ret v ->
                v = VList (map (VNamed "Rate") records)) /\
     (raise_on_errors _state = false \/
      fst (reported (before_check _state w1)) = RES_S_OK ->
      fst (wrapped f_name f a w) = Ret (VList (map (VNamed "Rate") records)))) /\
  (force_namedtuple _state = false \/ _is_rates_array helpers r = false ->
   (forall v, fst (wrapped f_name f a w) = Ret v -> v = r) /\
   (raise_on_errors _state = false \/
    fst (reported (before_check _state w1)) = RES_S_OK ->
    fst (wrapped f_name f a w) = Ret r)).
Proof.
  intros Hf. split.
  - intros Hn Hy rows records Hi Hrec.
    assert (Hr : reshape helpers _state r = Ret (VList (map (VNamed "Rate") records))).
    { unfold reshape. now rewrite Hn, Hy, Hi, (all_results_Rate rows records Hrec). }
    repeat split.
    + rewrite length_map. symmetry. exact (Forall2_length Hrec).
    + intros i fields Hnth. now rewrite nth_error_map, Hnth.
    + intros v Hv. exact (wrapped_returns_reshaped f_name f a w r w1 _ v Hf Hr Hv).
    + intros Hpass.
      exact (wrapped_returns_when_check_passes f_name f a w r w1 _ Hf Hr Hpass).
  - intros Hoff.
    assert (Hr : reshape helpers _state r = Ret r).
    { unfold reshape. destruct Hoff as [-> | Hy]; [reflexivity |].
      rewrite Hy. now destruct (force_namedtuple _state). }
    split.
    + intros v Hv. exact (wrapped_returns_reshaped f_name f a w r w1 _ v Hf Hr Hv).
    + intros Hpass.
      exact (wrapped_returns_when_check_passes f_name f a w r w1 _ Hf Hr Hpass).
Qed.

End DecoratorClaims.

(** ** The forwarding functions *)

Section ForwardingClaims.

Variable mt5 : MetaTrader5.
Variable helpers : Helpers mt5.
Variable RES_S_OK : Z.
Variable str : value -> string.
Variable _state : global_state.

Local Abbreviation wrapped := (_context_manager_modified helpers RES_S_OK str _state).

Lemma def_run (s : signature) (body : dict -> M mt5 value) a locals w :
  bind_args s a = Ret locals -> def s body a w = body locals w.
Proof. intros H. unfold def, bind, lift. now rewrite H. Qed.

Lemma def_rejects (s : signature) (body : dict -> M mt5 value) a e w :
  bind_args s a = Raise e -> def s body a w = (Raise e, w).
Proof. intros H. unfold def, bind, lift. now rewrite H. Qed.

Lemma is_None_true (x : pyobj) : is_None x = true -> x = PNone.
Proof. destruct x as [[] | |]; cbn; intros H; try discriminate H; reflexivity. Qed.

Lemma is_None_cases (x : pyobj) :
  is_None x = true /\ x = PNone \/ is_None x = false /\ x <> PNone.
Proof.
  destruct (is_None x) eqn:E.
  - left. split; [reflexivity | now apply is_None_true].
  - right. split; [reflexivity |]. intros ->. discriminate E.
Qed.

(** The trace of a decorated call, as far as calls for data go, is the
    trace of its body. *)
Lemma wrapped_data_calls_of_body f_name (f : pyargs -> M mt5 value) a w c :
  trace (snd (f a w)) = trace w ++ [Called c] ->
  is_last_error_call c = false ->
  data_calls (trace (snd (wrapped f_name f a w))) = data_calls (trace w) ++ [c].
Proof.
  intros Ht Hc. rewrite wrapped_data_calls, Ht, data_calls_app. cbn.
  now rewrite Hc.
Qed.

(** C4. [copy_rates] makes exactly one call for data, chosen by which of
    its keyword arguments are not [None]: [copy_rates_from] when
    [datetime_from] and [count] are given; else [copy_rates_range] when
    [datetime_from] and [datetime_to] are given; [copy_rates_from_pos]
    with 3000 and 0 when all four are [None]; and [copy_rates_from_pos]
    with [start_pos] and [count] otherwise.  The arguments are passed as
    they came. *)
Theorem copy_rates_dispatch a locals w :
  bind_args copy_rates_sig a = Ret locals ->
  let symbol := local "symbol" locals in
  let timeframe := local "timeframe" locals in
  let datetime_from := local "datetime_from" locals in
  let datetime_to := local "datetime_to" locals in
  let start_pos := local "start_pos" locals in
  let count := local "count" locals in
  exists c,
    trace (snd (copy_rates_def a w)) = trace w ++ [Called c] /\
    data_calls (trace (snd (copy_rates helpers RES_S_OK str _state a w))) =
      data_calls (trace w) ++ [c] /\
    (datetime_from <> PNone -> count <> PNone ->
     c = mk_call mt5_copy_rates_from [symbol; timeframe; datetime_from; count] []) /\
    (datetime_from <> PNone -> count = PNone -> datetime_to <> PNone ->
     c = mk_call mt5_copy_rates_range [symbol; timeframe; datetime_from; datetime_to] []) /\
    (datetime_from = PNone -> datetime_to = PNone -> start_pos = PNone -> count = PNone ->
     c = mk_call mt5_copy_rates_from_pos [symbol; timeframe; PInt 3000; PInt 0] []) /\
    (~ (datetime_from <> PNone /\ count <> PNone) ->
     ~ (datetime_from <> PNone /\ datetime_to <> PNone) ->
     ~ (datetime_from = PNone /\ datetime_to = PNone /\ start_pos = PNone /\ count = PNone) ->
     c = mk_call mt5_copy_rates_from_pos [symbol; timeframe; start_pos; count] []).
Proof.
  intros Hb. cbv zeta. unfold copy_rates.
  rewrite wrapped_data_calls. unfold copy_rates_def.
  rewrite (def_run _ _ a locals w Hb). cbn [forallb].
  generalize (local "symbol" locals) (local "timeframe" locals)
             (local "datetime_from" locals) (local "datetime_to" locals)
             (local "start_pos" locals) (local "count" locals).
  intros symbol timeframe datetime_from datetime_to start_pos count.
  destruct (is_None_cases datetime_from) as [[Ef Pf] | [Ef Pf]],
           (is_None_cases datetime_to) as [[Et Pt] | [Et Pt]],
           (is_None_cases start_pos) as [[Es Ps] | [Es Ps]],
           (is_None_cases count) as [[Ec Pc] | [Ec Pc]];
    rewrite Ef, Et, Es, Ec; cbn [negb andb];
    rewrite try_except_call; cbn [snd trace];
    (eexists; split; [reflexivity |];
     split; [rewrite data_calls_app; reflexivity |]);
    repeat split; intros; first [reflexivity | exfalso; tauto].
Qed.

(** [symbols_get], once its arguments are bound and [group] has a truth
    value: one call, then what [handed_back] makes of the answer. *)
Lemma symbols_get_def_run a locals w given :
  bind_args symbols_get_sig a = Ret locals ->
  truth (local "group" locals) = Ret given ->
  symbols_get_def a w =
  (handed_back op_symbols_get locals
     (fst (invoke mt5 (mk_call mt5_symbols_get []
                         (if given then [("group", local "group" locals)] else []))
                  (term w))),
   mk_world
     (snd (invoke mt5 (mk_call mt5_symbols_get []
                         (if given then [("group", local "group" locals)] else []))
                  (term w)))
     (trace w ++ [Called (mk_call mt5_symbols_get []
                            (if given then [("group", local "group" locals)] else []))])).
Proof.
  intros Hb Hg. unfold symbols_get_def. rewrite (def_run _ _ a locals w Hb).
  unfold bind at 1, lift at 1. rewrite Hg.
  unfold bind at 1.
  replace (if given then call mt5_symbols_get [] [("group", local "group" locals)]
           else call mt5_symbols_get [] [])
    with (call (mt5 := mt5) mt5_symbols_get []
            (if given then [("group", local "group" locals)] else []))
    by now destruct given.
  rewrite call_run. cbn [handed_back].
  destruct (fst (invoke mt5 _ _)) as [symbols | e]; [| reflexivity].
  unfold bind at 1, lift at 1.
  destruct (truth (local "function" locals)) as [[|] | e]; try reflexivity.
  unfold bind, lift, ret.
  now destruct (py_filter (local "function" locals) symbols).
Qed.

(** C5. [symbols_get] filters the tuple of the package by the predicate
    it is given: with a callable [f] as [function], it returns the tuple
    of those elements of the answer for which [f] holds, in their order;
    with no [function] it returns the answer as it came.  This is the
    value of the body; through the decorator it is the only value the
    call can return unless [force_namedtuple] reshapes it, and it is
    returned whenever the error check lets the call return. *)
Theorem symbols_get_filters_by_predicate a locals w given symbols :
  bind_args symbols_get_sig a = Ret locals ->
  truth (local "group" locals) = Ret given ->
  fst (invoke mt5 (mk_call mt5_symbols_get []
                     (if given then [("group", local "group" locals)] else []))
              (term w)) = Ret symbols ->
  (forall f items,
     local "function" locals = PFun f ->
     py_iter symbols = Ret items ->
     fst (symbols_get_def a w) = Ret (VTuple (filter f items)) /\
     (forall x, In x (filter f items) <-> In x items /\ f x = true) /\
     (reshape helpers _state (VTuple (filter f items)) = Ret (VTuple (filter f items)) ->
      (forall v, fst (symbols_get helpers RES_S_OK str _state a w) = Ret v ->
                 v = VTuple (filter f items)) /\
      (raise_on_errors _state = false \/
       fst (reported (before_check _state (snd (symbols_get_def a w)))) = RES_S_OK ->
       fst (symbols_get helpers RES_S_OK str _state a w) =
       Ret (VTuple (filter f items))))) /\
  (local "function" locals = PNone ->
   fst (symbols_get_def a w) = Ret symbols /\
   (reshape helpers _state symbols = Ret symbols ->
    (forall v, fst (symbols_get helpers RES_S_OK str _state a w) = Ret v -> v = symbols) /\
    (raise_on_errors _state = false \/
     fst (reported (before_check _state (snd (symbols_get_def a w)))) = RES_S_OK ->
     fst (symbols_get helpers RES_S_OK str _state a w) = Ret symbols))).
Proof.
  intros Hb Hg Hs.
  pose proof (symbols_get_def_run a locals w given Hb Hg) as Hrun.
  rewrite Hs in Hrun. cbn [handed_back] in Hrun.
  split.
  - intros f items Hf Hi. rewrite Hf in Hrun. cbn [truth] in Hrun.
    unfold py_filter in Hrun. rewrite Hi in Hrun.
    split; [now rewrite Hrun |].
    split; [intros x; apply filter_In |].
    intros Hsame. unfold symbols_get. split.
    + intros v Hv.
      exact (wrapped_returns_reshaped mt5 helpers RES_S_OK str _state "symbols_get"
               (symbols_get_def (mt5 := mt5)) a w _ _ _ v Hrun Hsame Hv).
    + intros Hpass. rewrite Hrun in Hpass. cbn [snd] in Hpass.
      exact (wrapped_returns_when_check_passes mt5 helpers RES_S_OK str _state "symbols_get"
               (symbols_get_def (mt5 := mt5)) a w _ _ _ Hrun Hsame Hpass).
  - intros Hf. rewrite Hf in Hrun. cbn [truth PNone value_truth] in Hrun.
    split; [now rewrite Hrun |].
    intros Hsame. unfold symbols_get. split.
    + intros v Hv.
      exact (wrapped_returns_reshaped mt5 helpers RES_S_OK str _state "symbols_get"
               (symbols_get_def (mt5 := mt5)) a w _ _ _ v Hrun Hsame Hv).
    + intros Hpass. rewrite Hrun in Hpass. cbn [snd] in Hpass.
      exact (wrapped_returns_when_check_passes mt5 helpers RES_S_OK str _state "symbols_get"
               (symbols_get_def (mt5 := mt5)) a w _ _ _ Hrun Hsame Hpass).
Qed.

(** C9. [symbols_get] treats a [group] without truth, [None] and the
    empty string among them, as absent and calls the package with no
    argument at all; a [group] with truth, any non-empty string among
    them, is forwarded under the keyword [group].  Either way this is the
    one call for data of the body and of the decorated function. *)
Theorem symbols_get_forwards_truthy_group_only a locals w :
  bind_args symbols_get_sig a = Ret locals ->
  (truth (local "group" locals) = Ret false ->
   trace (snd (symbols_get_def a w)) =
     trace w ++ [Called (mk_call mt5_symbols_get [] [])] /\
   data_calls (trace (snd (symbols_get helpers RES_S_OK str _state a w))) =
     data_calls (trace w) ++ [mk_call mt5_symbols_get [] []]) /\
  (truth (local "group" locals) = Ret true ->
   trace (snd (symbols_get_def a w)) =
     trace w ++ [Called (mk_call mt5_symbols_get [] [("group", local "group" locals)])] /\
   data_calls (trace (snd (symbols_get helpers RES_S_OK str _state a w))) =
     data_calls (trace w) ++
     [mk_call mt5_symbols_get [] [("group", local "group" locals)]]) /\
  truth PNone = Ret false /\
  truth (PStr "") = Ret false /\
  (forall s, s <> "" -> truth (PStr s) = Ret true).
Proof.
  intros Hb. repeat split; try reflexivity.
  - rewrite (symbols_get_def_run a locals w false Hb H). reflexivity.
  - apply wrapped_data_calls_of_body; [| reflexivity].
    rewrite (symbols_get_def_run a locals w false Hb H). reflexivity.
  - rewrite (symbols_get_def_run a locals w true Hb H). reflexivity.
  - apply wrapped_data_calls_of_body; [| reflexivity].
    rewrite (symbols_get_def_run a locals w true Hb H). reflexivity.
  - intros s Hs. cbn. destruct (String.eqb_spec s ""); [contradiction | reflexivity].
Qed.

(** *** Every operation at once *)

Lemma answer_invoke (c : mt5_call) (t : terminal mt5) :
  is_last_error_call c = false -> answer c t = invoke mt5 c t.
Proof.
  unfold is_last_error_call, answer. now destruct (callee c).
Qed.

(** A call in the shape the statements below use. *)
Lemma call_answer (f : mt5_function) (pos : list pyobj) (kw : dict) (w : world mt5) :
  is_last_error_call (mk_call f pos kw) = false ->
  call f pos kw w =
  (fst (answer (mk_call f pos kw) (term w)),
   mk_world (snd (answer (mk_call f pos kw) (term w)))
            (trace w ++ [Called (mk_call f pos kw)])).
Proof. intros H. rewrite (answer_invoke _ _ H). apply call_run. Qed.

Lemma guarded_call_answer (f : mt5_function) (pos : list pyobj) (kw : dict) (w : world mt5) :
  is_last_error_call (mk_call f pos kw) = false ->
  try_except_SystemError (call f pos kw) w =
  (match fst (answer (mk_call f pos kw) (term w)) with
   | Raise SystemError => Ret VNone
   | other => other
   end,
   mk_world (snd (answer (mk_call f pos kw) (term w)))
            (trace w ++ [Called (mk_call f pos kw)])).
Proof. intros H. rewrite (answer_invoke _ _ H). apply try_except_call. Qed.

Ltac guarded_answer :=
  cbn [handed_back guards_SystemError];
  match goal with
  | |- context [fst (answer ?c ?t)] => destruct (fst (answer c t)) as [? | []]
  end;
  reflexivity.

Ltac name_the_call :=
  match goal with
  | |- context [Called ?c] => exists c
  end.

(** An operation that calls the package itself, once its arguments are
    bound: one call to a counterpart, and what [handed_back] makes of the
    answer.  [login] needs its [login] to survive [_clean_args], and
    [symbols_get] a [group] that has a truth value. *)
Lemma body_of_run o a locals w :
  bind_args (signature_of o) a = Ret locals ->
  via_helper o = false ->
  (o = op_login -> dict_has "login" (_clean_args helpers locals) = true) ->
  (o = op_symbols_get -> exists given, truth (local "group" locals) = Ret given) ->
  exists c,
    In (callee c) (counterparts o) /\
    body_of helpers o a w =
    (handed_back o locals (fst (answer c (term w))),
     mk_world (snd (answer c (term w))) (trace w ++ [Called c])).
Proof.
  intros Hb Hv Hlogin Hgroup.
  destruct o; try discriminate Hv; cbn [body_of signature_of] in *.
  - (* initialize *)
    unfold initialize_def. rewrite (def_run _ _ a locals w Hb).
    unfold bind, ret. rewrite call_answer by reflexivity.
    name_the_call. split; [cbn; auto |]. cbn [handed_back guards_SystemError].
    now destruct (fst (answer _ _)).
  - (* login *)
    unfold login_def. rewrite (def_run _ _ a locals w Hb).
    specialize (Hlogin eq_refl). unfold dict_has in Hlogin.
    unfold bind at 1, lift, dict_pop.
    destruct (dict_get "login" (_clean_args helpers locals)) as [v |];
      [| discriminate Hlogin].
    rewrite call_answer by reflexivity.
    name_the_call. split; [cbn; auto | reflexivity].
  - unfold shutdown_def. rewrite (def_run _ _ a locals w Hb).
    rewrite call_answer by reflexivity. name_the_call. split; [cbn; auto | reflexivity].
  - unfold version_def. rewrite (def_run _ _ a locals w Hb).
    rewrite call_answer by reflexivity. name_the_call. split; [cbn; auto | reflexivity].
  - (* last_error *)
    unfold last_error. rewrite (def_run _ _ a locals w Hb).
    exists (mk_call mt5_last_error [] []). split; [cbn; auto |].
    unfold bind, call_last_error, ret, answer. cbn.
    now destruct (get_last_error mt5 (term w)) as [[c d] t].
  - unfold account_info_def. rewrite (def_run _ _ a locals w Hb).
    rewrite call_answer by reflexivity. name_the_call. split; [cbn; auto | reflexivity].
  - unfold terminal_info_def. rewrite (def_run _ _ a locals w Hb).
    rewrite call_answer by reflexivity. name_the_call. split; [cbn; auto | reflexivity].
  - unfold symbols_total_def. rewrite (def_run _ _ a locals w Hb).
    rewrite call_answer by reflexivity. name_the_call. split; [cbn; auto | reflexivity].
  - (* symbols_get *)
    destruct (Hgroup eq_refl) as [given Hg].
    rewrite (symbols_get_def_run a locals w given Hb Hg).
    name_the_call. split; [cbn; auto |].
    now rewrite answer_invoke by reflexivity.
  - unfold symbol_info_def. rewrite (def_run _ _ a locals w Hb).
    rewrite call_answer by reflexivity. name_the_call. split; [cbn; auto | reflexivity].
  - unfold symbol_info_tick_def. rewrite (def_run _ _ a locals w Hb).
    rewrite call_answer by reflexivity. name_the_call. split; [cbn; auto | reflexivity].
  - unfold symbol_select_def. rewrite (def_run _ _ a locals w Hb).
    rewrite call_answer by reflexivity. name_the_call. split; [cbn; auto | reflexivity].
  - unfold copy_rates_from_def. rewrite (def_run _ _ a locals w Hb).
    rewrite guarded_call_answer by reflexivity.
    name_the_call. split; [cbn; auto | guarded_answer].
  - unfold copy_rates_from_pos_def. rewrite (def_run _ _ a locals w Hb).
    rewrite guarded_call_answer by reflexivity.
    name_the_call. split; [cbn; auto | guarded_answer].
  - unfold copy_rates_range_def. rewrite (def_run _ _ a locals w Hb).
    rewrite guarded_call_answer by reflexivity.
    name_the_call. split; [cbn; auto | guarded_answer].
  - (* copy_rates *)
    unfold copy_rates_def. rewrite (def_run _ _ a locals w Hb). cbn [forallb].
    destruct (is_None (local "datetime_from" locals)),
             (is_None (local "datetime_to" locals)),
             (is_None (local "start_pos" locals)),
             (is_None (local "count" locals));
      cbn [negb andb];
      rewrite guarded_call_answer by reflexivity;
      name_the_call; (split; [cbn; auto | guarded_answer]).
  - unfold copy_ticks_from_def. rewrite (def_run _ _ a locals w Hb).
    rewrite guarded_call_answer by reflexivity.
    name_the_call. split; [cbn; auto | guarded_answer].
  - unfold copy_ticks_range_def. rewrite (def_run _ _ a locals w Hb).
    rewrite guarded_call_answer by reflexivity.
    name_the_call. split; [cbn; auto | guarded_answer].
  - unfold orders_total_def. rewrite (def_run _ _ a locals w Hb).
    rewrite call_answer by reflexivity. name_the_call. split; [cbn; auto | reflexivity].
  - unfold order_calc_margin_def. rewrite (def_run _ _ a locals w Hb).
    rewrite call_answer by reflexivity. name_the_call. split; [cbn; auto | reflexivity].
  - unfold order_calc_profit_def. rewrite (def_run _ _ a locals w Hb).
    rewrite call_answer by reflexivity. name_the_call. split; [cbn; auto | reflexivity].
  - unfold positions_total_def. rewrite (def_run _ _ a locals w Hb).
    rewrite call_answer by reflexivity. name_the_call. split; [cbn; auto | reflexivity].
  - unfold history_orders_total_def. rewrite (def_run _ _ a locals w Hb).
    rewrite call_answer by reflexivity. name_the_call. split; [cbn; auto | reflexivity].
  - unfold history_deals_total_def. rewrite (def_run _ _ a locals w Hb).
    rewrite call_answer by reflexivity. name_the_call. split; [cbn; auto | reflexivity].
Qed.



(** Every name of the module but [last_error] is bound to the decorated
    function. *)
Lemma exposed_decorated o :
  o <> op_last_error ->
  exposed helpers RES_S_OK str _state o =
  wrapped (name_of o) (body_of helpers o).
Proof. destruct o; intros H; try reflexivity. now contradiction H. Qed.


Lemma guarded_not_last_error o : guards_SystemError o = true -> o <> op_last_error.
Proof. intros H ->. discriminate H. Qed.

Lemma guarded_direct o : guards_SystemError o = true -> via_helper o = false.
Proof. now destruct o. Qed.

Lemma counterpart_not_last_error o c :
  o <> op_last_error -> In (callee c) (counterparts o) -> is_last_error_call c = false.
Proof.
  unfold is_last_error_call. intros Ho Hin.
  destruct o; cbn in Hin; try contradiction;
    repeat (destruct Hin as [<- | Hin]; [reflexivity |]); contradiction.
Qed.

(** C8. Each of [copy_rates_from], [copy_rates_from_pos],
    [copy_rates_range], [copy_rates], [copy_ticks_from] and
    [copy_ticks_range] makes one call; when that call raises
    [SystemError] the function returns [None] and [SystemError] does not
    leave the decorated function either; an exception of any other kind
    leaves the function, and the decorated function, as it is; a value is
    returned as it is. *)
Theorem guarded_operations_return_None_on_SystemError o a locals w :
  In o [op_copy_rates_from; op_copy_rates_from_pos; op_copy_rates_range;
        op_copy_rates; op_copy_ticks_from; op_copy_ticks_range] ->
  bind_args (signature_of o) a = Ret locals ->
  exists c,
    In (callee c) (counterparts o) /\
    trace (snd (body_of helpers o a w)) = trace w ++ [Called c] /\
    (fst (invoke mt5 c (term w)) = Raise SystemError ->
     fst (body_of helpers o a w) = Ret VNone /\
     fst (exposed helpers RES_S_OK str _state o a w) <> Raise SystemError /\
     (reshape helpers _state VNone = Ret VNone ->
      raise_on_errors _state = false \/
      fst (reported (before_check _state (snd (body_of helpers o a w)))) = RES_S_OK ->
      fst (exposed helpers RES_S_OK str _state o a w) = Ret VNone)) /\
    (forall e, e <> SystemError ->
       fst (invoke mt5 c (term w)) = Raise e ->
       fst (body_of helpers o a w) = Raise e /\
       fst (exposed helpers RES_S_OK str _state o a w) = Raise e) /\
    (forall v, fst (invoke mt5 c (term w)) = Ret v ->
       fst (body_of helpers o a w) = Ret v).
Proof.
  intros Hin Hb.
  assert (Hg : guards_SystemError o = true).
  { cbn in Hin. repeat (destruct Hin as [<- | Hin]; [reflexivity |]). contradiction. }
  assert (Hlogin : o = op_login -> dict_has "login" (_clean_args helpers locals) = true)
    by (intros ->; discriminate Hg).
  assert (Hgroup : o = op_symbols_get ->
                   exists given, truth (local "group" locals) = Ret given)
    by (intros ->; discriminate Hg).
  destruct (body_of_run o a locals w Hb (guarded_direct o Hg) Hlogin Hgroup)
    as (c & Hc & Hrun).
  pose proof (counterpart_not_last_error o c (guarded_not_last_error o Hg) Hc) as Hnl.
  rewrite (answer_invoke c (term w) Hnl) in Hrun.
  assert (Hback : forall r, handed_back o locals r =
                            match r with Raise SystemError => Ret VNone | _ => r end).
  { intros r. destruct o; try discriminate Hg; cbn; reflexivity. }
  rewrite Hback in Hrun.
  rewrite (exposed_decorated o (guarded_not_last_error o Hg)).
  exists c. split; [exact Hc |]. split; [now rewrite Hrun |].
  split; [| split].
  - intros Hs. rewrite Hs in Hrun. split; [now rewrite Hrun |]. split.
    + rewrite wrapped_run, Hrun.
      destruct (reshape helpers _state VNone) as [r' | e] eqn:Hr.
      * cbn zeta. rewrite check_errors_run.
        destruct (raise_on_errors _state); cbn [fst]; [| discriminate].
        destruct (_ =? RES_S_OK); cbn [fst]; discriminate.
      * cbn [fst]. intros Heq. inversion Heq; subst.
        unfold reshape in Hr.
        destruct (force_namedtuple _state); [| discriminate Hr].
        destruct (_is_rates_array helpers VNone); discriminate Hr.
    + intros Hsame Hpass. rewrite Hrun in Hpass. cbn [snd] in Hpass.
      exact (wrapped_returns_when_check_passes mt5 helpers RES_S_OK str _state
               (name_of o) (body_of helpers o) a w _ _ _ Hrun Hsame Hpass).
  - intros e Hne He. rewrite He in Hrun.
    assert (Hrun' : body_of helpers o a w =
                    (Raise e, mk_world (snd (invoke mt5 c (term w)))
                                       (trace w ++ [Called c])))
      by (rewrite Hrun; destruct e; try reflexivity; now contradiction Hne).
    split; [now rewrite Hrun' |].
    now rewrite (wrapped_raises mt5 helpers RES_S_OK str _state
                   (name_of o) (body_of helpers o) a w e _ Hrun').
  - intros v Hv. rewrite Hv in Hrun. now rewrite Hrun.
Qed.


(** C2, as the code has it.  Every public operation but [last_error]
    is bound to the decorated function, so a call of it runs the
    function and then the decorator: the result is reshaped, a line is
    logged under [global_debugging], and under [raise_on_errors] an error
    the terminal reports is raised as [MT5Error].  [last_error] is bound
    to the bare function, which only asks the package and returns the
    answer. *)
Theorem every_operation_but_last_error_is_decorated o a w :
  o <> op_last_error ->
  exposed helpers RES_S_OK str _state o a w =
    wrapped (name_of o) (body_of helpers o) a w /\
  (forall r w1 r',
     body_of helpers o a w = (Ret r, w1) ->
     reshape helpers _state r = Ret r' ->
     fst (exposed helpers RES_S_OK str _state o a w) =
       (if raise_on_errors _state
           && negb (fst (reported (before_check _state w1)) =? RES_S_OK)
        then Raise (MT5Error (fst (reported (before_check _state w1)))
                             (snd (reported (before_check _state w1))))
        else Ret r') /\
     logged_lines (trace (snd (exposed helpers RES_S_OK str _state o a w))) =
       logged_lines (trace w1) ++
       (if global_debugging _state
        then [("[" ++ (name_of o ++ "("
                         ++ _args_to_str helpers (args a) (kwargs a) ++ ")")
               ++ "]["
               ++ str (VTuple [VInt (fst (reported w1)); VStr (snd (reported w1))])
               ++ "][" ++ prefix 80 (str r') ++ "]")%string]
        else [])) /\
  exposed helpers RES_S_OK str _state op_last_error a w =
    body_of helpers op_last_error a w /\
  (forall locals,
     bind_args no_parameters a = Ret locals ->
     exposed helpers RES_S_OK str _state op_last_error a w =
       (Ret (VTuple [VInt (fst (reported w)); VStr (snd (reported w))]), asked w)).
Proof.
  intros Ho. split; [now rewrite (exposed_decorated o Ho) |].
  split.
  { intros r w1 r' Hf Hr. rewrite (exposed_decorated o Ho). split.
    - exact (wrapped_outcome mt5 helpers RES_S_OK str _state
               (name_of o) (body_of helpers o) a w r w1 r' Hf Hr).
    - exact (wrapped_logged_lines mt5 helpers RES_S_OK str _state
               (name_of o) (body_of helpers o) a w r w1 r' Hf Hr). }
  split; [reflexivity |].
  intros locals Hb. cbn [exposed]. unfold last_error.
  rewrite (def_run _ _ a locals w Hb).
  unfold bind, call_last_error, ret, reported, asked.
  now destruct (get_last_error mt5 (term w)) as [[c d] t].
Qed.

End ForwardingClaims.

(** * The module against the simulated terminal *)

Section Runs.

Import Demo.

Local Abbreviation run := (exposed helpers RES_S_OK str).

(** An error the terminal reports becomes [MT5Error] under
    [raise_on_errors]. *)
Lemma raise_on_errors_iff_error_reported_witness :
  fst (run strict op_account_info no_args offline) =
  Raise (MT5Error (-10004) "No IPC connection").
Proof.
  destruct (raise_on_errors_iff_error_reported mt5 helpers RES_S_OK str strict
              "account_info" (account_info_def (mt5 := mt5)) no_args offline
              VNone (snd (account_info_def (mt5 := mt5) no_args offline)) VNone
              eq_refl eq_refl) as [H _].
  destruct (H eq_refl) as [_ H'].
  apply H'. vm_compute. discriminate.
Defined.

(** With every switch off the decorated function is the function. *)
Lemma wrapper_is_identity_when_switched_off_witness :
  run quiet op_account_info no_args online =
  account_info_def (mt5 := mt5) no_args online.
Proof.
  apply (wrapper_is_identity_when_switched_off mt5 helpers RES_S_OK str quiet
           "account_info" (account_info_def (mt5 := mt5)) no_args online);
    reflexivity.
Defined.

(** The log line is written, then the error is raised. *)
Lemma effects_in_fixed_order_witness :
  trace (snd (run verbose_strict op_account_info no_args offline)) =
    [Called (mk_call mt5_account_info [] []);
     Called (mk_call mt5_last_error [] []);
     Logged "[account_info()][(<code>, 'No IPC connection')][None]";
     Called (mk_call mt5_last_error [] [])] /\
  fst (run verbose_strict op_account_info no_args offline) =
    Raise (MT5Error (-10004) "No IPC connection").
Proof.
  destruct (effects_in_fixed_order mt5 helpers RES_S_OK str verbose_strict
              "account_info" (account_info_def (mt5 := mt5)) no_args offline
              VNone (snd (account_info_def (mt5 := mt5) no_args offline))
              eq_refl eq_refl eq_refl) as [_ H].
  destruct (H VNone eq_refl) as (Ht & Hraise & _).
  split.
  - exact Ht.
  - apply Hraise. vm_compute. discriminate.
Defined.

(** Two bars come back as two [Rate] tuples under [force_namedtuple]. *)
Lemma rates_become_named_tuples_witness :
  fst (run named op_copy_rates_from two_bars_from_2020 online) =
  Ret (VList [VNamed "Rate" (bar 1577836800 112010 112250 111900 112100);
              VNamed "Rate" (bar 1577840400 112100 112300 112050 112200)]).
Proof.
  destruct (rates_become_named_tuples mt5 helpers RES_S_OK str named
              "copy_rates_from" (copy_rates_from_def (mt5 := mt5))
              two_bars_from_2020 online bars
              (snd (copy_rates_from_def (mt5 := mt5) two_bars_from_2020 online))
              eq_refl) as [H _].
  destruct (H eq_refl eq_refl
              [VRecord (bar 1577836800 112010 112250 111900 112100);
               VRecord (bar 1577840400 112100 112300 112050 112200)]
              [bar 1577836800 112010 112250 111900 112100;
               bar 1577840400 112100 112300 112050 112200]
              eq_refl) as (_ & _ & _ & Hret).
  - repeat constructor.
  - apply Hret. left. reflexivity.
Defined.

(** With no keyword at all [copy_rates] asks for position 3000, count 0. *)
Lemma copy_rates_dispatch_witness :
  exists c,
    trace (snd (copy_rates_def (mt5 := mt5) all_defaults online)) = [Called c] /\
    c = mk_call mt5_copy_rates_from_pos [PStr "EURUSD"; PInt 60; PInt 3000; PInt 0] [].
Proof.
  destruct (copy_rates_dispatch mt5 helpers RES_S_OK str quiet all_defaults
              [("symbol", PStr "EURUSD"); ("timeframe", PInt 60);
               ("datetime_from", PNone); ("datetime_to", PNone);
               ("start_pos", PNone); ("count", PNone)]
              online eq_refl) as (c & Ht & _ & _ & _ & Hdefault & _).
  exists c. split.
  - exact Ht.
  - apply Hdefault; reflexivity.
Defined.

(** The predicate keeps the two majors of the three symbols. *)
Lemma symbols_get_filters_by_predicate_witness :
  fst (symbols_get_def (mt5 := mt5)
         (mk_pyargs [] [("function", PFun is_major)]) online) =
  Ret (VTuple [EURUSD; GBPUSD]).
Proof.
  destruct (symbols_get_filters_by_predicate mt5 helpers RES_S_OK str quiet
              (mk_pyargs [] [("function", PFun is_major)])
              [("group", PNone); ("function", PFun is_major); ("kwargs", PDict [])]
              online false (VTuple [EURUSD; GBPUSD; USDJPY])
              eq_refl eq_refl eq_refl) as [H _].
  destruct (H is_major [EURUSD; GBPUSD; USDJPY] eq_refl eq_refl) as [Hdef _].
  exact Hdef.
Defined.

(** An empty [group] is not forwarded. *)
Lemma symbols_get_forwards_truthy_group_only_witness :
  trace (snd (symbols_get_def (mt5 := mt5) (mk_pyargs [PStr ""] []) online)) =
  [Called (mk_call mt5_symbols_get [] [])].
Proof.
  destruct (symbols_get_forwards_truthy_group_only mt5 helpers RES_S_OK str quiet
              (mk_pyargs [PStr ""] [])
              [("group", PStr ""); ("function", PNone); ("kwargs", PDict [])]
              online eq_refl) as [H _].
  destruct (H eq_refl) as [Ht _]. exact Ht.
Defined.

(** A [SystemError] of the package becomes [None]. *)
Lemma guarded_operations_return_None_on_SystemError_witness :
  fst (copy_ticks_from_def (mt5 := mt5) ticks_of_negative_count online) = Ret VNone.
Proof.
  destruct (guarded_operations_return_None_on_SystemError mt5 helpers RES_S_OK str quiet
              op_copy_ticks_from ticks_of_negative_count
              [("symbol", PStr "EURUSD"); ("datetime_from", PVal (VDatetime 1577836800));
               ("count", PInt (-1)); ("flags", PInt 1)]
              online)
    as (c & Hc & Ht & Hsys & _).
  - cbn. tauto.
  - reflexivity.
  - assert (Hcall : c = mk_call mt5_copy_ticks_from
                          [PStr "EURUSD"; PVal (VDatetime 1577836800); PInt (-1); PInt 1] []).
    { vm_compute in Ht. now inversion Ht. }
    subst c. destruct Hsys as [Hnone _]; [vm_compute; reflexivity | exact Hnone].
Defined.



(** The run the lemma above rests on, and one that does not go through
    [_clean_args]: a [group] that is an array of two records has no truth
    value, and [symbols_get] ends before it calls. *)
Example calls_that_fit_and_do_not_reach_the_package :
  run quiet op_login no_account online = (Raise KeyError, online) /\
  run quiet op_symbols_get (mk_pyargs [PVal bars] []) online = (Raise ValueError, online).
Proof. split; reflexivity. Qed.

(** [initialize] is bound to the decorated function. *)
Lemma every_operation_but_last_error_is_decorated_witness :
  run verbose_strict op_initialize no_args offline =
  _context_manager_modified helpers RES_S_OK str verbose_strict
    "initialize" (initialize_def helpers) no_args offline.
Proof.
  destruct (every_operation_but_last_error_is_decorated mt5 helpers RES_S_OK str
              verbose_strict op_initialize no_args offline) as [H _].
  - discriminate.
  - exact H.
Defined.

(** C2, as the claim has it, fails: [last_error] does not pass through
    the decorator.  On a terminal that reports an error, with
    [global_debugging] and [raise_on_errors] set, [last_error()] returns
    the error as a tuple and logs nothing, where a decorated function
    would log a line and raise [MT5Error]. *)
Lemma last_error_is_not_decorated :
  ~ (forall (mt5 : MetaTrader5) (helpers : Helpers mt5) (RES_S_OK : Z)
            (str : value -> string) (_state : global_state)
            (o : operation) (a : pyargs) (w : world mt5),
       exposed helpers RES_S_OK str _state o a w =
       _context_manager_modified helpers RES_S_OK str _state
         (name_of o) (body_of helpers o) a w).
Proof.
  intros H.
  specialize (H mt5 helpers RES_S_OK str verbose_strict op_last_error no_args failed).
  vm_compute in H. discriminate H.
Qed.

(** The four branches of [copy_rates]. *)
Example copy_rates_from_and_count :
  data_calls (trace (snd (run quiet op_copy_rates
                            (mk_pyargs [PStr "EURUSD"; PInt 60]
                               [("datetime_from", PVal (VDatetime 1577836800));
                                ("count", PInt 2)]) online))) =
  [mk_call mt5_copy_rates_from
     [PStr "EURUSD"; PInt 60; PVal (VDatetime 1577836800); PInt 2] []].
Proof. reflexivity. Qed.

Example copy_rates_from_and_to :
  data_calls (trace (snd (run quiet op_copy_rates
                            (mk_pyargs [PStr "EURUSD"; PInt 60]
                               [("datetime_from", PVal (VDatetime 1577836800));
                                ("datetime_to", PVal (VDatetime 1577840400))]) online))) =
  [mk_call mt5_copy_rates_range
     [PStr "EURUSD"; PInt 60; PVal (VDatetime 1577836800); PVal (VDatetime 1577840400)] []].
Proof. reflexivity. Qed.

Example copy_rates_from_alone :
  data_calls (trace (snd (run quiet op_copy_rates
                            (mk_pyargs [PStr "EURUSD"; PInt 60]
                               [("datetime_from", PVal (VDatetime 1577836800))]) online))) =
  [mk_call mt5_copy_rates_from_pos [PStr "EURUSD"; PInt 60; PNone; PNone] []].
Proof. reflexivity. Qed.

Example copy_rates_by_position :
  data_calls (trace (snd (run everything op_copy_rates
                            (mk_pyargs [PStr "EURUSD"; PInt 60]
                               [("start_pos", PInt 0); ("count", PInt 2)]) online))) =
  [mk_call mt5_copy_rates_from_pos [PStr "EURUSD"; PInt 60; PInt 0; PInt 2] []].
Proof. reflexivity. Qed.

(** Keyword-only parameters cannot be given by position: the call is
    refused before the package is reached. *)
Example copy_rates_third_positional :
  run quiet op_copy_rates (mk_pyargs [PStr "EURUSD"; PInt 60; PInt 3] []) online =
  (Raise TypeError, online).
Proof. reflexivity. Qed.

(** A [group] with truth is forwarded under its keyword. *)
Example symbols_get_with_group :
  trace (snd (run quiet op_symbols_get (mk_pyargs [] [("group", PStr "*USD*")]) online)) =
  [Called (mk_call mt5_symbols_get [] [("group", PStr "*USD*")])].
Proof. reflexivity. Qed.

(** A negative count makes the simulated terminal raise [SystemError];
    the function answers [None], which the error check then replaces. *)
Example copy_rates_negative_count :
  fst (copy_rates_def (mt5 := mt5)
         (mk_pyargs [PStr "EURUSD"; PInt 60] [("start_pos", PInt 0); ("count", PInt (-2))])
         online) = Ret VNone /\
  fst (run strict op_copy_rates
         (mk_pyargs [PStr "EURUSD"; PInt 60] [("start_pos", PInt 0); ("count", PInt (-2))])
         online) = Raise (MT5Error (-2) "Invalid params").
Proof. split; reflexivity. Qed.

(** The two runs the lemma above compares. *)
Example last_error_on_failed_terminal :
  run verbose_strict op_last_error no_args failed =
    (Ret (VTuple [VInt (-10004); VStr "No IPC connection"]),
     @mk_world mt5 (mk_station false no_connection)
       [Called (mk_call mt5_last_error [] [])]) /\
  fst (_context_manager_modified helpers RES_S_OK str verbose_strict
         "last_error" (last_error (mt5 := mt5)) no_args failed) =
    Raise (MT5Error (-10004) "No IPC connection") /\
  logged_lines (trace (snd (_context_manager_modified helpers RES_S_OK str verbose_strict
                              "last_error" (last_error (mt5 := mt5)) no_args failed))) =
    ["[last_error()][(<code>, 'No IPC connection')][(<code>, 'No IPC connection')]"].
Proof. repeat split. Qed.

End Runs.

(** * Further properties of the decorator *)

(** ** Strings *)

Lemma prefix_length (n : nat) (s : string) :
  String.length (prefix n s) = Nat.min n (String.length s).
Proof.
  unfold prefix. revert n. induction s as [| c s IH]; intros [| n]; cbn; auto.
Qed.

Lemma prefix_all (n : nat) (s : string) :
  (String.length s <= n)%nat -> prefix n s = s.
Proof.
  unfold prefix. revert n. induction s as [| c s IH]; intros [| n] H; cbn in *;
    try reflexivity; try lia.
  f_equal. apply IH. lia.
Qed.

Lemma prefix_is_prefix (n : nat) (s : string) :
  String.prefix (prefix n s) s = true.
Proof.
  unfold prefix. revert n. induction s as [| c s IH]; intros [| n]; cbn; auto.
  destruct (Ascii.ascii_dec c c) as [_ | H]; [apply IH | now contradiction H].
Qed.

(** ** Rate records that do not fit *)

Lemma Rate_raises_TypeError (row : value) (e : exn) :
  Rate row = Raise e -> e = TypeError.
Proof.
  unfold Rate. destruct row; cbn;
    try (intros H; now inversion H);
    match goal with
    | |- context [Nat.eqb ?n ?m] => destruct (Nat.eqb n m)
    end; intros H; now inversion H.
Qed.

Lemma Rate_needs_eight_fields (row : value) :
  (forall fields, py_iter row = Ret fields -> length fields <> 8%nat) ->
  Rate row = Raise TypeError.
Proof.
  intros H. unfold Rate. destruct (py_iter row) as [fields | e] eqn:Hi.
  - specialize (H fields eq_refl). cbn [length Rate_columns].
    destruct (Nat.eqb_spec (length fields) 8); [contradiction | reflexivity].
  - destruct row; cbn in Hi; now inversion Hi.
Qed.

Lemma all_results_Rate_fails (rows : list value) :
  Exists (fun row => forall fields, py_iter row = Ret fields -> length fields <> 8%nat)
         rows ->
  all_results Rate rows = Raise TypeError.
Proof.
  induction 1 as [row rows H | row rows _ IH]; cbn.
  - now rewrite (Rate_needs_eight_fields row H).
  - destruct (Rate row) as [rate | e] eqn:Hr.
    + now rewrite IH.
    + now rewrite (Rate_raises_TypeError row e Hr).
Qed.

Section MoreDecorator.

Variable mt5 : MetaTrader5.
Variable helpers : Helpers mt5.
Variable RES_S_OK : Z.
Variable str : value -> string.
Variable _state : global_state.

Local Abbreviation wrapped := (_context_manager_modified helpers RES_S_OK str _state).

(** X1. An exception of the function leaves the decorated call as it
    is, whatever the switches: exactly the world the function left, so no
    line is logged for the failed call, [last_error()] is not asked and
    nothing is turned into [MT5Error].  This holds for every operation of
    the module. *)
Theorem failed_call_is_neither_logged_nor_checked o a w e w1 :
  body_of helpers o a w = (Raise e, w1) ->
  exposed helpers RES_S_OK str _state o a w = (Raise e, w1).
Proof.
  intros Hf. destruct o;
    try exact (wrapped_raises mt5 helpers RES_S_OK str _state _ _ a w e w1 Hf).
  exact Hf.
Qed.

(** X2. Reshaping can fail: with [force_namedtuple] set, a result that
    [_is_rates_array] accepts but one of whose records does not have
    exactly the eight rate fields makes the decorated call raise
    [TypeError], in the world the function returned in: the result is
    lost, nothing is logged and the error check does not run. *)
Theorem ragged_rates_raise_TypeError f_name (f : pyargs -> M mt5 value) a w r w1 rows :
  f a w = (Ret r, w1) ->
  force_namedtuple _state = true ->
  _is_rates_array helpers r = true ->
  py_iter r = Ret rows ->
  Exists (fun row => forall fields, py_iter row = Ret fields -> length fields <> 8%nat)
         rows ->
  wrapped f_name f a w = (Raise TypeError, w1).
Proof.
  intros Hf Hn Hy Hi Hbad. rewrite wrapped_run, Hf.
  unfold reshape. now rewrite Hn, Hy, Hi, (all_results_Rate_fails rows Hbad).
Qed.

(** X3. Once the function has returned and its result is reshaped, the
    decorator adds to the trace the [last_error()] and the line of the
    log under [global_debugging], then the [last_error()] of the check
    under [raise_on_errors], and nothing else; the terminal is the one
    these zero, one or two [last_error()] leave. *)
Theorem decorator_adds_at_most_two_last_error f_name (f : pyargs -> M mt5 value)
    a w r w1 r' :
  f a w = (Ret r, w1) ->
  reshape helpers _state r = Ret r' ->
  trace (snd (wrapped f_name f a w)) =
    trace w1 ++
    (if global_debugging _state
     then [Called (mk_call mt5_last_error [] []);
           Logged ("[" ++ (f_name ++ "("
                             ++ _args_to_str helpers (args a) (kwargs a) ++ ")")
                   ++ "]["
                   ++ str (VTuple [VInt (fst (reported w1)); VStr (snd (reported w1))])
                   ++ "][" ++ prefix 80 (str r') ++ "]")%string]
     else []) ++
    (if raise_on_errors _state then [Called (mk_call mt5_last_error [] [])] else []) /\
  term (snd (wrapped f_name f a w)) =
    term (if raise_on_errors _state
          then asked (before_check _state w1)
          else before_check _state w1).
Proof.
  intros Hf Hr. rewrite wrapped_run, Hf, Hr. cbn zeta.
  rewrite check_errors_run, debug_log_run. unfold before_check.
  destruct (global_debugging _state), (raise_on_errors _state); cbn [fst snd];
    repeat match goal with
           | |- context [if ?b then Ret tt else _] => destruct b
           end;
    cbn [snd asked trace term]; rewrite <- ?app_assoc, ?app_nil_r;
    split; reflexivity.
Qed.

(** X4. The decorator never asks the package for data: for every
    operation of the module, the calls other than [last_error()] of a
    call are those of its body, in the same order, whatever the switches
    and however the call ends. *)
Theorem decorator_makes_no_data_call o a w :
  data_calls (trace (snd (exposed helpers RES_S_OK str _state o a w))) =
  data_calls (trace (snd (body_of helpers o a w))).
Proof.
  destruct o; try exact (wrapped_data_calls mt5 helpers RES_S_OK str _state _ _ a w).
  reflexivity.
Qed.

(** X5. The log line never shows more than 80 characters of the result:
    what it shows is a prefix of [str(result)], at most 80 characters
    long, and the whole of it when it is that short. *)
Theorem logged_result_is_cut_at_80 f_name (f : pyargs -> M mt5 value) a w r w1 r' :
  global_debugging _state = true ->
  f a w = (Ret r, w1) ->
  reshape helpers _state r = Ret r' ->
  exists shown,
    logged_lines (trace (snd (wrapped f_name f a w))) =
      logged_lines (trace w1) ++
      [("[" ++ (f_name ++ "(" ++ _args_to_str helpers (args a) (kwargs a) ++ ")")
        ++ "]["
        ++ str (VTuple [VInt (fst (reported w1)); VStr (snd (reported w1))])
        ++ "][" ++ shown ++ "]")%string] /\
    (String.length shown <= 80)%nat /\
    String.prefix shown (str r') = true /\
    ((String.length (str r') <= 80)%nat -> shown = str r').
Proof.
  intros Hd Hf Hr. exists (prefix 80 (str r')). split; [| split; [| split]].
  - rewrite (wrapped_logged_lines mt5 helpers RES_S_OK str _state
               f_name f a w r w1 r' Hf Hr), Hd. reflexivity.
  - rewrite prefix_length. apply Nat.le_min_l.
  - apply prefix_is_prefix.
  - apply prefix_all.
Qed.

(** When logging is off the name and the arguments of the call play no
    part in what the decorator does. *)
Lemma wrapped_without_log f_name g_name (f g : pyargs -> M mt5 value) a b w :
  global_debugging _state = false ->
  f a w = g b w ->
  wrapped f_name f a w = wrapped g_name g b w.
Proof.
  intros Hd Hfg. rewrite !wrapped_run, Hfg.
  destruct (g b w) as [[r | e] w1]; [| reflexivity].
  destruct (reshape helpers _state r) as [r' | e]; [| reflexivity].
  cbn zeta. now rewrite !debug_log_run, Hd.
Qed.

End MoreDecorator.

(** * Further properties of the forwarding functions *)

(** ** Dicts and binding *)

Lemma dict_get_remove_same (k : string) (d : dict) :
  dict_get k (dict_remove k d) = None.
Proof.
  induction d as [| [k' v] d IH]; cbn; [reflexivity |].
  destruct (String.eqb k k') eqn:E; [exact IH |]. cbn. now rewrite E.
Qed.

Lemma dict_get_remove_other (k k' : string) (d : dict) :
  k' <> k -> dict_get k' (dict_remove k d) = dict_get k' d.
Proof.
  intros Hne. induction d as [| [k0 v] d IH]; cbn; [reflexivity |].
  destruct (String.eqb_spec k k0) as [-> | Hk].
  - destruct (String.eqb_spec k' k0) as [-> | _]; [now contradiction Hne | exact IH].
  - cbn. now rewrite IH.
Qed.

Lemma bind_args_raises_TypeError (s : signature) (a : pyargs) (e : exn) :
  bind_args s a = Raise e -> e = TypeError.
Proof.
  unfold bind_args.
  repeat match goal with
         | |- context [if ?b then _ else _] => destruct b
         | |- context [match ?x with Some _ => _ | None => _ end] => destruct x
         end;
    intros H; now inversion H.
Qed.

Lemma py_iter_raises_TypeError (v : value) (e : exn) :
  py_iter v = Raise e -> e = TypeError.
Proof. destruct v; cbn; intros H; now inversion H. Qed.

(** No keyword of [kw] bears one of [names]. *)
Lemma no_keyword_among (names : list string) (kw : dict) :
  Forall (fun name => dict_get name kw = None) names ->
  existsb (fun kv => mem (fst kv) names) kw = false.
Proof.
  intros H. induction kw as [| [k v] kw IH]; cbn; [reflexivity |].
  assert (Hk : mem k names = false).
  { unfold mem. clear IH. induction H as [| name names Hn _ IHn]; cbn; [reflexivity |].
    cbn in Hn. destruct (String.eqb_spec name k) as [-> | Hne]; [discriminate Hn |].
    destruct (String.eqb_spec k name) as [-> | _]; [now contradiction Hne | exact IHn]. }
  rewrite Hk. cbn. apply IH.
  eapply Forall_impl; [| exact H]. intros name Hn. cbn in Hn.
  now destruct (String.eqb name k).
Qed.

Lemma some_keyword_among (names : list string) (kw : dict) (name : string) :
  In name names ->
  dict_get name kw <> None ->
  existsb (fun kv => mem (fst kv) names) kw = true.
Proof.
  intros Hin Hget. induction kw as [| [k v] kw IH]; cbn in *; [now contradiction Hget |].
  destruct (String.eqb_spec name k) as [<- | Hne].
  - assert (Hm : mem name names = true).
    { unfold mem. apply existsb_exists. exists name. split; [exact Hin |].
      apply String.eqb_refl. }
    now rewrite Hm.
  - rewrite (IH Hget). apply orb_true_r.
Qed.

Section MoreForwarding.

Variable mt5 : MetaTrader5.
Variable helpers : Helpers mt5.
Variable RES_S_OK : Z.
Variable str : value -> string.
Variable _state : global_state.

Local Abbreviation wrapped := (_context_manager_modified helpers RES_S_OK str _state).

Lemma body_of_rejects o a e w :
  bind_args (signature_of o) a = Raise e ->
  body_of helpers o a w = (Raise e, w).
Proof.
  intros H. destruct o; cbn [body_of signature_of] in *;
    exact (def_rejects mt5 _ _ a e w H).
Qed.

Lemma exposed_rejects o a e w :
  bind_args (signature_of o) a = Raise e ->
  exposed helpers RES_S_OK str _state o a w = (Raise e, w).
Proof.
  intros H. pose proof (body_of_rejects o a e w H) as Hb.
  destruct o;
    try exact (wrapped_raises mt5 helpers RES_S_OK str _state _ _ a w e w Hb).
  exact Hb.
Qed.

(** X6. A call whose arguments do not fit the signature of the [def]
    is refused with [TypeError] before anything happens: the terminal is
    not called, nothing is logged and [last_error()] is not asked,
    whatever the switches.  This holds for every operation of the
    module. *)
Theorem ill_formed_call_never_reaches_the_terminal o a e w :
  bind_args (signature_of o) a = Raise e ->
  e = TypeError /\
  exposed helpers RES_S_OK str _state o a w = (Raise TypeError, w).
Proof.
  intros H. pose proof (bind_args_raises_TypeError _ _ _ H) as ->.
  split; [reflexivity | exact (exposed_rejects o a TypeError w H)].
Qed.

(** X7. No operation takes more positional arguments than its [def]
    has parameters before the [*]: such a call ends in [TypeError] with
    the world untouched.  So the four selectors of [copy_rates] can only
    be given by keyword, as can everything but [path] of [initialize],
    [login] of [login], [symbol] of [orders_get] and [positions_get] and
    [request] of [order_check] and [order_send]. *)
Theorem keyword_only_parameters_are_keyword_only o a w :
  (length (sig_positional (signature_of o)) < length (args a))%nat ->
  exposed helpers RES_S_OK str _state o a w = (Raise TypeError, w) /\
  length (sig_positional (signature_of op_copy_rates)) = 2%nat /\
  length (sig_positional (signature_of op_initialize)) = 1%nat /\
  length (sig_positional (signature_of op_login)) = 1%nat /\
  length (sig_positional (signature_of op_orders_get)) = 1%nat /\
  length (sig_positional (signature_of op_positions_get)) = 1%nat /\
  length (sig_positional (signature_of op_order_check)) = 1%nat /\
  length (sig_positional (signature_of op_order_send)) = 1%nat.
Proof.
  intros H. split; [| repeat split].
  apply exposed_rejects. unfold bind_args.
  apply Nat.ltb_lt in H. now rewrite H.
Qed.

(** X8. [login] passes the account as the one positional argument of
    [_mt5.login] and takes it out of the keywords: the call never
    carries [login] twice, and every other cleaned argument goes
    through under its keyword, unchanged.  When cleaning has left no
    [login], the call ends in [KeyError] and the terminal is not
    reached. *)
Theorem login_passes_the_account_by_position a locals w :
  bind_args login_sig a = Ret locals ->
  (forall account,
     dict_get "login" (_clean_args helpers locals) = Some account ->
     exists c,
       login_def helpers a w =
         (fst (invoke mt5 c (term w)),
          mk_world (snd (invoke mt5 c (term w))) (trace w ++ [Called c])) /\
       callee c = mt5_login /\
       call_args c = [account] /\
       dict_get "login" (call_kwargs c) = None /\
       (forall k, k <> "login" ->
          dict_get k (call_kwargs c) = dict_get k (_clean_args helpers locals))) /\
  (dict_get "login" (_clean_args helpers locals) = None ->
   login_def helpers a w = (Raise KeyError, w) /\
   login helpers RES_S_OK str _state a w = (Raise KeyError, w)).
Proof.
  intros Hb. split.
  - intros account Hget.
    exists (mk_call mt5_login [account] (dict_remove "login" (_clean_args helpers locals))).
    split; [| split; [reflexivity | split; [reflexivity | split]]].
    + unfold login_def. rewrite (def_run mt5 _ _ a locals w Hb).
      unfold bind at 1, lift, dict_pop. rewrite Hget. apply call_run.
    + apply dict_get_remove_same.
    + intros k Hk. now apply dict_get_remove_other.
  - intros Hget.
    assert (Hdef : login_def helpers a w = (Raise KeyError, w)).
    { unfold login_def. rewrite (def_run mt5 _ _ a locals w Hb).
      unfold bind at 1, lift, dict_pop. now rewrite Hget. }
    split; [exact Hdef |].
    exact (wrapped_raises mt5 helpers RES_S_OK str _state "login"
             (login_def helpers) a w KeyError w Hdef).
Qed.

(** X9. [symbols_get] with a predicate needs an answer it can go
    through: when the package answers with something that is no
    sequence, [None] above all, the call made, the function ends in
    [TypeError] instead of handing the answer back, and so does the
    decorated function, which logs nothing. *)
Theorem symbols_get_with_predicate_needs_a_sequence a locals w given symbols f :
  bind_args symbols_get_sig a = Ret locals ->
  truth (local "group" locals) = Ret given ->
  fst (invoke mt5 (mk_call mt5_symbols_get []
                     (if given then [("group", local "group" locals)] else []))
              (term w)) = Ret symbols ->
  local "function" locals = PFun f ->
  (forall items, py_iter symbols <> Ret items) ->
  fst (symbols_get_def a w) = Raise TypeError /\
  trace (snd (symbols_get_def a w)) =
    trace w ++ [Called (mk_call mt5_symbols_get []
                          (if given then [("group", local "group" locals)] else []))] /\
  symbols_get helpers RES_S_OK str _state a w = symbols_get_def a w /\
  (forall items, py_iter VNone <> Ret items).
Proof.
  intros Hb Hg Hs Hf Hno.
  pose proof (symbols_get_def_run mt5 a locals w given Hb Hg) as Hrun.
  rewrite Hs in Hrun. cbn [handed_back] in Hrun. rewrite Hf in Hrun.
  cbn [truth] in Hrun. unfold py_filter in Hrun.
  destruct (py_iter symbols) as [items | e] eqn:Hi; [now contradiction (Hno items) |].
  pose proof (py_iter_raises_TypeError symbols e Hi) as ->.
  split; [now rewrite Hrun |]. split; [now rewrite Hrun |].
  split; [| intros items H; discriminate H].
  unfold symbols_get. rewrite Hrun.
  exact (wrapped_raises mt5 helpers RES_S_OK str _state "symbols_get"
           (symbols_get_def (mt5 := mt5)) a w TypeError _ Hrun).
Qed.

Lemma bind_history_total x y kw :
  bind_args history_total_sig (mk_pyargs [x; y] kw) =
  if existsb (fun kv => mem (fst kv) ["datetime_from"; "datetime_to"]) kw
  then Raise TypeError
  else Ret [("datetime_from", x); ("datetime_to", y);
            ("kwargs",
             PDict (filter (fun kv => negb (mem (fst kv) ["datetime_from"; "datetime_to"]))
                           kw))].
Proof. reflexivity. Qed.

(** X10. [history_orders_total] and [history_deals_total], called with
    the two dates by position, drop every keyword: the package is
    called with the two dates and nothing else, whatever further
    keywords the call carries.  A keyword that names one of the two
    dates again is refused with [TypeError], the terminal not being
    reached. *)
Theorem history_totals_drop_keywords o x y kw w :
  In o [op_history_orders_total; op_history_deals_total] ->
  (dict_get "datetime_from" kw = None ->
   dict_get "datetime_to" kw = None ->
   exists f,
     counterparts o = [f] /\
     body_of helpers o (mk_pyargs [x; y] kw) w =
       (fst (invoke mt5 (mk_call f [x; y] []) (term w)),
        mk_world (snd (invoke mt5 (mk_call f [x; y] []) (term w)))
                 (trace w ++ [Called (mk_call f [x; y] [])]))) /\
  (dict_get "datetime_from" kw <> None \/ dict_get "datetime_to" kw <> None ->
   exposed helpers RES_S_OK str _state o (mk_pyargs [x; y] kw) w = (Raise TypeError, w)).
Proof.
  intros Hin. split.
  - intros Hf Ht.
    assert (Hb : bind_args history_total_sig (mk_pyargs [x; y] kw) =
                 Ret [("datetime_from", x); ("datetime_to", y);
                      ("kwargs",
                       PDict (filter (fun kv =>
                                        negb (mem (fst kv) ["datetime_from"; "datetime_to"]))
                                     kw))]).
    { rewrite bind_history_total, no_keyword_among; [reflexivity |].
      repeat constructor; assumption. }
    cbn in Hin. destruct Hin as [<- | [<- | []]]; cbn [body_of counterparts];
      eexists; (split; [reflexivity |]).
    + unfold history_orders_total_def. rewrite (def_run mt5 _ _ _ _ w Hb). apply call_run.
    + unfold history_deals_total_def. rewrite (def_run mt5 _ _ _ _ w Hb). apply call_run.
  - intros Hdup. apply exposed_rejects.
    assert (Hsig : signature_of o = history_total_sig)
      by (cbn in Hin; destruct Hin as [<- | [<- | []]]; reflexivity).
    rewrite Hsig, bind_history_total.
    assert (Hsome : existsb (fun kv => mem (fst kv) ["datetime_from"; "datetime_to"]) kw
                    = true).
    { destruct Hdup as [H | H].
      - apply (some_keyword_among _ kw "datetime_from"); [cbn; auto | exact H].
      - apply (some_keyword_among _ kw "datetime_to"); [cbn; auto | exact H]. }
    now rewrite Hsome.
Qed.

Lemma copy_rates_from_by_position s t d n w :
  copy_rates_from_def (mt5 := mt5) (mk_pyargs [s; t; d; n] []) w =
  try_except_SystemError (call mt5_copy_rates_from [s; t; d; n] []) w.
Proof. reflexivity. Qed.

Lemma copy_rates_range_by_position s t d d' w :
  copy_rates_range_def (mt5 := mt5) (mk_pyargs [s; t; d; d'] []) w =
  try_except_SystemError (call mt5_copy_rates_range [s; t; d; d'] []) w.
Proof. reflexivity. Qed.

Lemma copy_rates_from_pos_by_position s t p n w :
  copy_rates_from_pos_def (mt5 := mt5) (mk_pyargs [s; t; p; n] []) w =
  try_except_SystemError (call mt5_copy_rates_from_pos [s; t; p; n] []) w.
Proof. reflexivity. Qed.

(** X11. [copy_rates] is the function it chooses: a call of it is, in
    value or exception, trace and terminal, the call of
    [copy_rates_from], [copy_rates_range] or [copy_rates_from_pos] with
    the same arguments by position; and with [global_debugging] off the
    decorated functions agree as well (with it on they differ by the
    line they log). *)
Theorem copy_rates_is_the_function_it_chooses a locals w :
  bind_args copy_rates_sig a = Ret locals ->
  let symbol := local "symbol" locals in
  let timeframe := local "timeframe" locals in
  let datetime_from := local "datetime_from" locals in
  let datetime_to := local "datetime_to" locals in
  let start_pos := local "start_pos" locals in
  let count := local "count" locals in
  (datetime_from <> PNone -> count <> PNone ->
   copy_rates_def a w =
     copy_rates_from_def (mk_pyargs [symbol; timeframe; datetime_from; count] []) w /\
   (global_debugging _state = false ->
    copy_rates helpers RES_S_OK str _state a w =
      copy_rates_from helpers RES_S_OK str _state
        (mk_pyargs [symbol; timeframe; datetime_from; count] []) w)) /\
  (datetime_from <> PNone -> count = PNone -> datetime_to <> PNone ->
   copy_rates_def a w =
     copy_rates_range_def
       (mk_pyargs [symbol; timeframe; datetime_from; datetime_to] []) w /\
   (global_debugging _state = false ->
    copy_rates helpers RES_S_OK str _state a w =
      copy_rates_range helpers RES_S_OK str _state
        (mk_pyargs [symbol; timeframe; datetime_from; datetime_to] []) w)) /\
  (datetime_from = PNone -> datetime_to = PNone -> start_pos = PNone -> count = PNone ->
   copy_rates_def a w =
     copy_rates_from_pos_def (mk_pyargs [symbol; timeframe; PInt 3000; PInt 0] []) w /\
   (global_debugging _state = false ->
    copy_rates helpers RES_S_OK str _state a w =
      copy_rates_from_pos helpers RES_S_OK str _state
        (mk_pyargs [symbol; timeframe; PInt 3000; PInt 0] []) w)) /\
  (~ (datetime_from <> PNone /\ count <> PNone) ->
   ~ (datetime_from <> PNone /\ datetime_to <> PNone) ->
   ~ (datetime_from = PNone /\ datetime_to = PNone /\ start_pos = PNone /\ count = PNone) ->
   copy_rates_def a w =
     copy_rates_from_pos_def (mk_pyargs [symbol; timeframe; start_pos; count] []) w /\
   (global_debugging _state = false ->
    copy_rates helpers RES_S_OK str _state a w =
      copy_rates_from_pos helpers RES_S_OK str _state
        (mk_pyargs [symbol; timeframe; start_pos; count] []) w)).
Proof.
  intros Hb. cbv zeta.
  assert (Hlift : forall g_name (g : pyargs -> M mt5 value) b,
            copy_rates_def a w = g b w ->
            copy_rates_def a w = g b w /\
            (global_debugging _state = false ->
             copy_rates helpers RES_S_OK str _state a w = wrapped g_name g b w)).
  { intros g_name g b H. split; [exact H |]. intros Hd.
    exact (wrapped_without_log mt5 helpers RES_S_OK str _state
             "copy_rates" g_name _ g a b w Hd H). }
  unfold copy_rates_from, copy_rates_range, copy_rates_from_pos.
  assert (Hrun : copy_rates_def a w =
                 copy_rates_def (mk_pyargs [local "symbol" locals; local "timeframe" locals]
                                   [("datetime_from", local "datetime_from" locals);
                                    ("datetime_to", local "datetime_to" locals);
                                    ("start_pos", local "start_pos" locals);
                                    ("count", local "count" locals)]) w).
  { unfold copy_rates_def. rewrite (def_run mt5 _ _ a locals w Hb). reflexivity. }
  revert Hrun.
  generalize (local "symbol" locals) (local "timeframe" locals)
             (local "datetime_from" locals) (local "datetime_to" locals)
             (local "start_pos" locals) (local "count" locals).
  intros symbol timeframe datetime_from datetime_to start_pos count Hrun.
  destruct (is_None_cases datetime_from) as [[Ef Pf] | [Ef Pf]],
           (is_None_cases datetime_to) as [[Et Pt] | [Et Pt]],
           (is_None_cases start_pos) as [[Es Ps] | [Es Ps]],
           (is_None_cases count) as [[Ec Pc] | [Ec Pc]];
    (split; [| split; [| split]]); intros;
    try (exfalso; tauto);
    apply Hlift; rewrite Hrun;
    rewrite ?copy_rates_from_by_position, ?copy_rates_range_by_position,
            ?copy_rates_from_pos_by_position;
    unfold copy_rates_def, def, bind, lift; cbn [bind_args];
    subst; cbn; rewrite ?Ef, ?Et, ?Es, ?Ec; reflexivity.
Qed.

(** X12. [symbol_select] enables by default: called with the symbol
    alone it asks the package to select it with [True], exactly as when
    [True] is given, by position or by keyword. *)
Theorem symbol_select_enables_by_default s w :
  symbol_select_def (mt5 := mt5) (mk_pyargs [s] []) w =
    call mt5_symbol_select [s; PBool true] [] w /\
  symbol_select_def (mt5 := mt5) (mk_pyargs [s; PBool true] []) w =
    symbol_select_def (mt5 := mt5) (mk_pyargs [s] []) w /\
  symbol_select_def (mt5 := mt5) (mk_pyargs [s] [("enable", PBool true)]) w =
    symbol_select_def (mt5 := mt5) (mk_pyargs [s] []) w /\
  symbol_select_def (mt5 := mt5) (mk_pyargs [] [("symbol", s)]) w =
    symbol_select_def (mt5 := mt5) (mk_pyargs [s] []) w.
Proof. repeat split. Qed.

(** X13. The guard and the decorator together turn a [SystemError] of
    the package into the error of the terminal: under [raise_on_errors]
    (and [None] not being reshaped), when the one call of a guarded
    function raises [SystemError], the decorated function raises
    [MT5Error] with what [last_error()] reports after the failed call,
    and returns [None] only if that is [RES_S_OK]. *)
Theorem guarded_SystemError_surfaces_as_MT5Error o a locals w :
  In o [op_copy_rates_from; op_copy_rates_from_pos; op_copy_rates_range;
        op_copy_rates; op_copy_ticks_from; op_copy_ticks_range] ->
  bind_args (signature_of o) a = Ret locals ->
  raise_on_errors _state = true ->
  reshape helpers _state VNone = Ret VNone ->
  exists c,
    trace (snd (body_of helpers o a w)) = trace w ++ [Called c] /\
    (fst (invoke mt5 c (term w)) = Raise SystemError ->
     (fst (reported (before_check _state
                       (mk_world (snd (invoke mt5 c (term w)))
                                 (trace w ++ [Called c])))) <> RES_S_OK ->
      fst (exposed helpers RES_S_OK str _state o a w) =
        Raise (MT5Error
                 (fst (reported (before_check _state
                                   (mk_world (snd (invoke mt5 c (term w)))
                                             (trace w ++ [Called c])))))
                 (snd (reported (before_check _state
                                   (mk_world (snd (invoke mt5 c (term w)))
                                             (trace w ++ [Called c]))))))) /\
     (fst (reported (before_check _state
                       (mk_world (snd (invoke mt5 c (term w)))
                                 (trace w ++ [Called c])))) = RES_S_OK ->
      fst (exposed helpers RES_S_OK str _state o a w) = Ret VNone)).
Proof.
  intros Hin Hb Hraise Hsame.
  assert (Hg : guards_SystemError o = true).
  { cbn in Hin. repeat (destruct Hin as [<- | Hin]; [reflexivity |]). contradiction. }
  assert (Hlogin : o = op_login -> dict_has "login" (_clean_args helpers locals) = true)
    by (intros ->; discriminate Hg).
  assert (Hgroup : o = op_symbols_get ->
                   exists given, truth (local "group" locals) = Ret given)
    by (intros ->; discriminate Hg).
  destruct (body_of_run mt5 helpers o a locals w Hb (guarded_direct o Hg) Hlogin Hgroup)
    as (c & Hc & Hrun).
  pose proof (counterpart_not_last_error o c (guarded_not_last_error o Hg) Hc) as Hnl.
  rewrite (answer_invoke mt5 c (term w) Hnl) in Hrun.
  exists c. split; [now rewrite Hrun |].
  intros Hsys. rewrite Hsys in Hrun.
  assert (Hnone : body_of helpers o a w =
                  (Ret VNone, mk_world (snd (invoke mt5 c (term w)))
                                       (trace w ++ [Called c])))
    by (rewrite Hrun; destruct o; try discriminate Hg; reflexivity).
  rewrite (exposed_decorated mt5 helpers RES_S_OK str _state o
             (guarded_not_last_error o Hg)).
  rewrite (wrapped_outcome mt5 helpers RES_S_OK str _state (name_of o)
             (body_of helpers o) a w VNone _ VNone Hnone Hsame), Hraise.
  cbn [andb]. split.
  - intros Hne. apply Z.eqb_neq in Hne. now rewrite Hne.
  - intros ->. now rewrite Z.eqb_refl.
Qed.

(** The names of the local variables a call binds are the parameters of
    the signature, in their order, then [kwargs] when the signature
    collects keywords. *)
Lemma fill_names (ps : list param) (given l : dict) :
  fill ps given = Some l -> map fst l = map p_name ps.
Proof.
  revert l. induction ps as [| p ps IH]; cbn; intros l H.
  - now inversion H.
  - destruct (match dict_get (p_name p) given with
              | Some v => Some v
              | None => p_default p
              end) as [v |]; [| discriminate H].
    destruct (fill ps given) as [l' |]; [| discriminate H].
    inversion H; subst. cbn. now rewrite (IH l' eq_refl).
Qed.

Lemma bind_args_names (s : signature) (a : pyargs) (l : dict) :
  bind_args s a = Ret l ->
  map fst l = map p_name (sig_params s) ++ (if sig_var_keyword s then ["kwargs"] else []).
Proof.
  unfold bind_args.
  destruct (_ <? _)%nat; [discriminate |].
  destruct (existsb _ (kwargs a)); [discriminate |].
  destruct (_ && _); [discriminate |].
  destruct (fill _ _) as [l' |] eqn:Hfill; [| discriminate].
  intros H. inversion H; subst. rewrite map_app, (fill_names _ _ _ Hfill).
  now destruct (sig_var_keyword s).
Qed.

(** X14. [order_check] and [order_send] are [_do_trade_action], and
    [history_deals_get] and [history_orders_get] are
    [_get_history_type_stuff], each applied to the function of the
    package of the same name and to the dict of all the local variables
    of the call.  That dict has always the same keys in the same order,
    whatever the call gave: every parameter of the [def], then [kwargs]
    for the keywords the [def] does not name. *)
Theorem helpers_receive_every_local_variable o a locals w :
  In o [op_order_check; op_order_send; op_history_deals_get; op_history_orders_get] ->
  bind_args (signature_of o) a = Ret locals ->
  (o = op_order_check ->
   body_of helpers o a w = _do_trade_action helpers mt5_order_check locals w /\
   order_check_def helpers a w = _do_trade_action helpers mt5_order_check locals w) /\
  (o = op_order_send ->
   body_of helpers o a w = _do_trade_action helpers mt5_order_send locals w /\
   order_send_def helpers a w = _do_trade_action helpers mt5_order_send locals w) /\
  (o = op_history_deals_get ->
   body_of helpers o a w =
     _get_history_type_stuff helpers mt5_history_deals_get locals w /\
   history_deals_get_def helpers a w =
     _get_history_type_stuff helpers mt5_history_deals_get locals w) /\
  (o = op_history_orders_get ->
   body_of helpers o a w =
     _get_history_type_stuff helpers mt5_history_orders_get locals w /\
   history_orders_get_def helpers a w =
     _get_history_type_stuff helpers mt5_history_orders_get locals w) /\
  (In o [op_order_check; op_order_send] ->
   map fst locals =
     ["request"; "action"; "magic"; "order"; "symbol"; "volume"; "price"; "stoplimit";
      "sl"; "tp"; "deviation"; "type"; "type_filling"; "type_time"; "expiration";
      "comment"; "position"; "position_by"; "kwargs"]) /\
  (In o [op_history_deals_get; op_history_orders_get] ->
   map fst locals =
     ["datetime_from"; "datetime_to"; "group"; "ticket"; "position"; "function";
      "kwargs"]).
Proof.
  intros Hin Hb. pose proof (bind_args_names _ _ _ Hb) as Hn.
  assert (Hsame : forall (body : dict -> M mt5 value) s,
            signature_of o = s ->
            def s body a w = body locals w).
  { intros body s <-. exact (def_run mt5 _ body a locals w Hb). }
  split; [| split; [| split; [| split; [| split]]]].
  - intros ->. split; exact (Hsame _ _ eq_refl).
  - intros ->. split; exact (Hsame _ _ eq_refl).
  - intros ->. split; exact (Hsame _ _ eq_refl).
  - intros ->. split; exact (Hsame _ _ eq_refl).
  - intros Ho. cbn in Ho. destruct Ho as [<- | [<- | []]]; exact Hn.
  - intros Ho. cbn in Ho. destruct Ho as [<- | [<- | []]]; exact Hn.
Qed.

End MoreForwarding.

(** * More runs against the simulated terminal *)

Section MoreRuns.

Import Demo.

Local Abbreviation run := (exposed helpers RES_S_OK str).

(** The package refuses a number for a symbol: the exception comes out
    as it is, after the one call, with nothing logged. *)
Lemma failed_call_is_neither_logged_nor_checked_witness :
  run verbose_strict op_copy_rates_from symbol_as_number online =
  (Raise TypeError,
   @mk_world mt5 (mk_station true success)
     [Called (mk_call mt5_copy_rates_from [PInt 1; PInt 60; PInt 0; PInt 2] [])]).
Proof.
  apply (failed_call_is_neither_logged_nor_checked mt5 helpers RES_S_OK str
           verbose_strict op_copy_rates_from symbol_as_number online).
  reflexivity.
Defined.

Lemma ragged_rates_raise_TypeError_witness :
  _context_manager_modified helpers RES_S_OK str everything
    "answer_ragged" answer_ragged no_args online =
  (Raise TypeError, online).
Proof.
  apply (ragged_rates_raise_TypeError mt5 helpers RES_S_OK str everything
           "answer_ragged" answer_ragged no_args online ragged online
           [VRecord (bar 1577836800 112010 112250 111900 112100);
            VRecord [VInt 1577840400]]);
    try reflexivity.
  apply Exists_cons_tl, Exists_cons_hd.
  intros fields H. inversion H. cbn. discriminate.
Defined.

Lemma decorator_adds_at_most_two_last_error_witness :
  trace (snd (run strict op_account_info no_args offline)) =
  [Called (mk_call mt5_account_info [] []); Called (mk_call mt5_last_error [] [])].
Proof.
  destruct (decorator_adds_at_most_two_last_error mt5 helpers RES_S_OK str strict
              "account_info" (account_info_def (mt5 := mt5)) no_args offline
              VNone (snd (account_info_def (mt5 := mt5) no_args offline)) VNone
              eq_refl eq_refl) as [Ht _].
  exact Ht.
Defined.

Lemma logged_result_is_cut_at_80_witness :
  logged_lines (trace (snd (run everything op_copy_rates_from two_bars_from_2020 online))) =
  ["[copy_rates_from(EURUSD, #, #, #)][(1, 'Success')][[...]]"].
Proof.
  destruct (logged_result_is_cut_at_80 mt5 helpers RES_S_OK str everything
              "copy_rates_from" (copy_rates_from_def (mt5 := mt5))
              two_bars_from_2020 online bars
              (snd (copy_rates_from_def (mt5 := mt5) two_bars_from_2020 online))
              (VList [VNamed "Rate" (bar 1577836800 112010 112250 111900 112100);
                      VNamed "Rate" (bar 1577840400 112100 112300 112050 112200)])
              eq_refl eq_refl eq_refl) as (shown & Hl & _ & _ & Hall).
  rewrite Hall in Hl by (vm_compute; lia). exact Hl.
Defined.

(** [copy_rates] without a timeframe. *)
Lemma ill_formed_call_never_reaches_the_terminal_witness :
  run verbose_strict op_copy_rates (mk_pyargs [PStr "EURUSD"] []) online =
  (Raise TypeError, online).
Proof.
  destruct (ill_formed_call_never_reaches_the_terminal mt5 helpers RES_S_OK str
              verbose_strict op_copy_rates (mk_pyargs [PStr "EURUSD"] [])
              TypeError online eq_refl) as [_ H].
  exact H.
Defined.

(** [copy_rates] with position and count given by position. *)
Lemma keyword_only_parameters_are_keyword_only_witness :
  run quiet op_copy_rates (mk_pyargs [PStr "EURUSD"; PInt 60; PInt 0; PInt 10] []) online =
  (Raise TypeError, online).
Proof.
  destruct (keyword_only_parameters_are_keyword_only mt5 helpers RES_S_OK str quiet
              op_copy_rates (mk_pyargs [PStr "EURUSD"; PInt 60; PInt 0; PInt 10] [])
              online) as [H _].
  - cbn. lia.
  - exact H.
Defined.

Lemma login_passes_the_account_by_position_witness :
  (exists c,
     trace (snd (login_def helpers account_5 online)) = [Called c] /\
     call_args c = [PInt 5] /\
     dict_get "login" (call_kwargs c) = None /\
     dict_get "password" (call_kwargs c) = Some (PStr "secret")) /\
  login helpers RES_S_OK str verbose_strict no_account online = (Raise KeyError, online).
Proof.
  split.
  - destruct (login_passes_the_account_by_position mt5 helpers RES_S_OK str quiet
                account_5
                [("login", PInt 5); ("password", PStr "secret"); ("server", PNone);
                 ("timeout", PNone); ("kwargs", PDict [])]
                online eq_refl) as [H _].
    destruct (H (PInt 5) eq_refl) as (c & Hrun & _ & Ha & Hl & Hk).
    exists c. rewrite Hrun. repeat split; try assumption.
    rewrite Hk by discriminate. reflexivity.
  - destruct (login_passes_the_account_by_position mt5 helpers RES_S_OK str verbose_strict
                no_account
                [("login", PNone); ("password", PStr "secret"); ("server", PNone);
                 ("timeout", PNone); ("kwargs", PDict [])]
                online eq_refl) as [_ H].
    destruct (H eq_refl) as [_ Hd]. exact Hd.
Defined.

(** Without a connection the simulated terminal answers [None]. *)
Lemma symbols_get_with_predicate_needs_a_sequence_witness :
  fst (run verbose_strict op_symbols_get majors_only offline) = Raise TypeError /\
  fst (run quiet op_symbols_get no_args offline) = Ret VNone.
Proof.
  split; [| reflexivity].
  destruct (symbols_get_with_predicate_needs_a_sequence mt5 helpers RES_S_OK str
              verbose_strict majors_only
              [("group", PNone); ("function", PFun is_major); ("kwargs", PDict [])]
              offline false VNone is_major eq_refl eq_refl eq_refl eq_refl)
    as (Hdef & _ & Hdec & _).
  - intros items H. discriminate H.
  - cbn [exposed]. rewrite Hdec. exact Hdef.
Defined.

Lemma history_totals_drop_keywords_witness :
  trace (snd (history_orders_total_def (mt5 := mt5) whole_2020 online)) =
  [Called (mk_call mt5_history_orders_total
             [PVal (VDatetime 1577836800); PVal (VDatetime 1609459200)] [])].
Proof.
  destruct (history_totals_drop_keywords mt5 helpers RES_S_OK str quiet
              op_history_orders_total
              (PVal (VDatetime 1577836800)) (PVal (VDatetime 1609459200))
              [("group", PStr "*USD*")] online) as [H _].
  - cbn. auto.
  - destruct (H eq_refl eq_refl) as (f & Hf & Hrun).
    inversion Hf; subst f.
    change (history_orders_total_def (mt5 := mt5) whole_2020 online)
      with (body_of helpers op_history_orders_total
              (mk_pyargs [PVal (VDatetime 1577836800); PVal (VDatetime 1609459200)]
                         [("group", PStr "*USD*")]) online).
    rewrite Hrun. reflexivity.
Defined.

Lemma copy_rates_is_the_function_it_chooses_witness :
  copy_rates_def (mt5 := mt5) two_bars_by_keyword online =
  copy_rates_from_def (mt5 := mt5) two_bars_from_2020 online.
Proof.
  destruct (copy_rates_is_the_function_it_chooses mt5 helpers RES_S_OK str quiet
              two_bars_by_keyword
              [("symbol", PStr "EURUSD"); ("timeframe", PInt 60);
               ("datetime_from", PVal (VDatetime 1577836800)); ("datetime_to", PNone);
               ("start_pos", PNone); ("count", PInt 2)]
              online eq_refl) as [H _].
  destruct H as [Hdef _]; [discriminate | discriminate | exact Hdef].
Defined.

Lemma guarded_SystemError_surfaces_as_MT5Error_witness :
  fst (run strict op_copy_ticks_from ticks_of_negative_count online) =
  Raise (MT5Error (-2) "Invalid params").
Proof.
  destruct (guarded_SystemError_surfaces_as_MT5Error mt5 helpers RES_S_OK str strict
              op_copy_ticks_from ticks_of_negative_count
              [("symbol", PStr "EURUSD"); ("datetime_from", PVal (VDatetime 1577836800));
               ("count", PInt (-1)); ("flags", PInt 1)]
              online) as (c & Ht & H).
  - cbn. tauto.
  - reflexivity.
  - reflexivity.
  - reflexivity.
  - assert (Hcall : c = mk_call mt5_copy_ticks_from
                          [PStr "EURUSD"; PVal (VDatetime 1577836800); PInt (-1); PInt 1] []).
    { vm_compute in Ht. now inversion Ht. }
    subst c. destruct H as [Hraise _]; [vm_compute; reflexivity |].
    apply Hraise. vm_compute. discriminate.
Defined.

Lemma helpers_receive_every_local_variable_witness :
  exists d,
    order_send_def helpers buy_request online =
      _do_trade_action helpers mt5_order_send d online /\
    length d = 19%nat /\
    dict_get "action" d = Some (PInt 1) /\
    dict_get "symbol" d = Some PNone.
Proof.
  destruct (helpers_receive_every_local_variable mt5 helpers
              op_order_send buy_request
              [("request", PNone); ("action", PInt 1); ("magic", PInt 7);
               ("order", PNone); ("symbol", PNone); ("volume", PNone); ("price", PNone);
               ("stoplimit", PNone); ("sl", PNone); ("tp", PNone); ("deviation", PNone);
               ("type", PNone); ("type_filling", PNone); ("type_time", PNone);
               ("expiration", PNone); ("comment", PNone); ("position", PNone);
               ("position_by", PNone); ("kwargs", PDict [])]
              online) as (_ & Hsend & _).
  - cbn. auto.
  - reflexivity.
  - destruct (Hsend eq_refl) as [_ Hdef].
    eexists. split; [exact Hdef |]. repeat split.
Defined.

End MoreRuns.
